(** * volkswagencarnet: the path query engine and the action-request core

    A shallow embedding of [utilities.py] ([find_path], [is_valid_path],
    [camel2slug]) and of the request handling of [vw_vehicle.py]
    ([Vehicle._in_progress], [Vehicle._handle_response],
    [Vehicle.wait_for_request], [Vehicle.discover], [Vehicle.expired], the
    control actions with [Vehicle.set_refresh], the status properties of
    the requests), with the properties of the specification stated over
    it. *)

From Stdlib Require Import String Ascii List ZArith QArith Bool Lia.
Import ListNotations.
Local Open Scope string_scope.
Local Open Scope Z_scope.

#[local] Set Warnings "-register-all".

(** ** Python values *)

Module Py.

(** The values the program handles: what the backend's JSON decoder yields
    (None, booleans, integers, finite floats as rationals, strings, lists,
    string-keyed dicts), [datetime] instants as microseconds since the
    epoch, and opaque objects described by their attributes.  [VTime t] is
    a [datetime] whose fields read the instant [t]: one in UTC, or one
    without a zone that is meant in UTC, as [datetime.utcnow()] gives it.
    [VZoned t o] is a [datetime] at the instant [t] in a zone with the
    fixed offset [o] from UTC, in microseconds, so that its fields read
    [t + o].  A dict is an association list in insertion order, as Python
    iterates it; the dict operations below keep the keys unique. *)
Inductive value : Type :=
| VNone
| VBool (b : bool)
| VInt (z : Z)
| VFloat (q : Q)
| VStr (s : string)
| VTime (t : Z)
| VList (l : list value)
| VDict (d : list (string * value))
| VObj (attrs : list (string * value))
| VZoned (t : Z) (offset : Z).

Abbreviation dict := (list (string * value)).

(** Exceptions.  All of them derive from Python's [Exception], so that an
    [except Exception] clause catches every one.  The message of a plain
    [Exception] is either a literal or an f-string with one hole. *)
Inductive message : Type :=
| MsgText (s : string)
| MsgFmt (before : string) (arg : value) (after : string).

Inductive exn : Type :=
| KeyError (key : value)
| TypeError
| AttributeError
| ValueError
| OverflowError
| UnboundLocalError
| Exception (msg : message).

(** The outcome of running a piece of code: a value, a raised exception, or
    [Diverge] when the recursion budget of the model is used up (Python
    would still be recursing).  Only [wait_for_request] can diverge. *)
Inductive result (A : Type) : Type :=
| Ret (a : A)
| Raise (e : exn)
| Diverge.
Arguments Ret {A} a.
Arguments Raise {A} e.
Arguments Diverge {A}.

Definition rbind {A B} (r : result A) (k : A -> result B) : result B :=
  match r with
  | Ret a => k a
  | Raise e => Raise e
  | Diverge => Diverge
  end.

Declare Scope res_scope.
Delimit Scope res_scope with res.
Notation "x <- r ;; k" := (rbind r (fun x => k))
  (at level 61, r at next level, right associativity) : res_scope.

Definition is_KeyError (e : exn) : bool :=
  match e with KeyError _ => true | _ => false end.

(** [bool(v)]. *)
Definition truthy (v : value) : bool :=
  match v with
  | VNone => false
  | VBool b => b
  | VInt z => negb (z =? 0)
  | VFloat q => negb (Qeq_bool q 0)
  | VStr s => negb (String.eqb s "")
  | VTime _ => true
  | VList l => match l with [] => false | _ => true end
  | VDict d => match d with [] => false | _ => true end
  | VObj _ => true
  | VZoned _ _ => true
  end.

(** [v == "s"] for a string literal: only a [str] equals a [str]. *)
Definition eq_str (v : value) (s : string) : bool :=
  match v with VStr s' => String.eqb s' s | _ => false end.

(** [v == n] for an integer literal: booleans, integers and floats compare
    by numeric value, anything else is different. *)
Definition eq_int (v : value) (n : Z) : bool :=
  match v with
  | VBool b => (if b then 1 else 0) =? n
  | VInt z => z =? n
  | VFloat q => Qeq_bool q (inject_Z n)
  | _ => false
  end.

(** [v in [s1, ..., sn]] for a list of string literals. *)
Definition in_strs (v : value) (l : list string) : bool :=
  existsb (eq_str v) l.

(** *** Dict operations *)

(** [key in d], [d[key]] as an option. *)
Fixpoint lookup (k : string) (d : dict) : option value :=
  match d with
  | [] => None
  | (k', v) :: d' => if String.eqb k k' then Some v else lookup k d'
  end.

Definition mem (k : string) (d : dict) : bool :=
  match lookup k d with Some _ => true | None => false end.

(** [d[key] = v]: an existing key keeps its place, a new one goes last. *)
Fixpoint setitem (k : string) (v : value) (d : dict) : dict :=
  match d with
  | [] => [(k, v)]
  | (k', v') :: d' =>
      if String.eqb k k' then (k, v) :: d' else (k', v') :: setitem k v d'
  end.

(** [d.update(e)] for a dict [e]. *)
Definition update (d e : dict) : dict :=
  fold_left (fun acc kv => setitem (fst kv) (snd kv) acc) e d.

(** [d.pop(key)] on a present key; the popped value is not used. *)
Fixpoint remove (k : string) (d : dict) : dict :=
  match d with
  | [] => []
  | (k', v') :: d' =>
      if String.eqb k k' then remove k d' else (k', v') :: remove k d'
  end.

Definition keys (d : dict) : list string := map fst d.

(** [d.get(key, default)] on a dict. *)
Definition dget (d : dict) (k : string) (default : value) : value :=
  match lookup k d with Some v => v | None => default end.

(** [v.get(key, default)] on any value: only a dict has a [get] method. *)
Definition get (v : value) (k : string) (default : value) : result value :=
  match v with
  | VDict d => Ret (dget d k default)
  | _ => Raise AttributeError
  end.

(** [v[key]] with a string key: a dict looks the key up, a string or a list
    wants an integer index, anything else is not subscriptable. *)
Definition subscript (v : value) (k : string) : result value :=
  match v with
  | VDict d =>
      match lookup k d with
      | Some x => Ret x
      | None => Raise (KeyError (VStr k))
      end
  | _ => Raise TypeError
  end.

(** [v.name] for an attribute name that no built-in type defines. *)
Definition getattr (v : value) (name : string) : result value :=
  match v with
  | VObj attrs =>
      match lookup name attrs with
      | Some x => Ret x
      | None => Raise AttributeError
      end
  | _ => Raise AttributeError
  end.

(** [for x in v]: a list yields its elements, a dict its keys, a string
    its characters; nothing else is iterable. *)
Fixpoint chars (s : string) : list value :=
  match s with
  | EmptyString => []
  | String c rest => VStr (String c EmptyString) :: chars rest
  end.

Definition iterate (v : value) : result (list value) :=
  match v with
  | VList l => Ret l
  | VDict d => Ret (map (fun k => VStr k) (keys d))
  | VStr s => Ret (chars s)
  | _ => Raise TypeError
  end.

(** [d[key]] on a string-keyed dict with an arbitrary key: a hashable key
    that is not a string is missing, a list or a dict is unhashable. *)
Definition subscript_value (d : dict) (key : value) : result value :=
  match key with
  | VStr k => subscript (VDict d) k
  | VList _ | VDict _ => Raise TypeError
  | _ => Raise (KeyError key)
  end.

(** [target.update(arg)], giving the updated target.  The argument is a
    mapping, as the decoder gives for a JSON object; any other argument is
    taken to raise.  Python also merges a sequence of key/value pairs,
    whose keys need not be strings: the properties below keep to the
    arguments that are mappings, by their hypotheses. *)
Definition update_method (target arg : value) : result value :=
  match target with
  | VDict d =>
      match arg with
      | VDict e => Ret (VDict (update d e))
      | _ => Raise TypeError
      end
  | _ => Raise AttributeError
  end.

(** The double quote character, for the messages that contain it. *)
Definition dquote : string := String (ascii_of_nat 34) EmptyString.

(** [s.split(sep)] for a one-character separator. *)
Fixpoint split (sep : ascii) (s : string) : list string :=
  match s with
  | EmptyString => [EmptyString]
  | String c rest =>
      if Ascii.eqb c sep then EmptyString :: split sep rest
      else match split sep rest with
           | [] => [String c EmptyString]
           | hd :: tl => String c hd :: tl
           end
  end.

End Py.

Import Py.

(** ** utilities.py *)

Module Utilities.

(** The [path] argument of [find_path]: [None], a dotted string, or the
    list of segments the recursive calls pass on. *)
Inductive path : Type :=
| PathNone
| PathStr (s : string)
| PathList (segs : list string).

(** [not path]. *)
Definition path_falsy (p : path) : bool :=
  match p with
  | PathNone => true
  | PathStr s => String.eqb s ""
  | PathList segs => match segs with [] => true | _ => false end
  end.

(** The recursion of [find_path] once [path] is a list:
    [find_path(src[path[0]], path[1:])]. *)
Fixpoint find_path_list (src : value) (segs : list string) : result value :=
  match segs with
  | [] => Ret src
  | seg :: rest =>
      match subscript src seg with
      | Ret v => find_path_list v rest
      | Raise e => Raise e
      | Diverge => Diverge
      end
  end.

Definition find_path (src : value) (p : path) : result value :=
  if path_falsy p then Ret src
  else match p with
       | PathNone => Ret src
       | PathStr s => find_path_list src (split "." s)
       | PathList segs => find_path_list src segs
       end.

(** [try: find_path(src, path); return True / except KeyError: return False]:
    any other exception leaves the function. *)
Definition is_valid_path (src : value) (p : path) : result bool :=
  match find_path src p with
  | Ret _ => Ret true
  | Raise e => if is_KeyError e then Ret false else Raise e
  | Diverge => Diverge
  end.

End Utilities.

Import Utilities.

(** ** vw_vehicle.py *)

Module Vehicle.

(** What the vehicle asks of its connection object, with the arguments of
    the call. *)
Inductive call : Type :=
| getOperationList (vin : string)
| get_request_status (vin : string) (request : value)
| setCharging (vin : string) (start : bool)
| setChargingSettings (vin : string) (data : value)
| setClimaterSettings (vin : string) (data : value)
| setWindowHeater (vin : string) (start : bool)
| setClimater (vin : string) (data : value) (start : bool)
| setLock (vin : string) (lock : bool) (spin : value)
| wakeUpVehicle (vin : string)
| getSelectiveStatus (vin : string) (services : list string).

(** What the outside world sees of a run: the connection calls and the
    [asyncio.sleep] suspensions, most recent first. *)
Inductive event : Type :=
| EvCall (c : call)
| EvSleep (seconds : Z).

(** A connection call returns a value or raises. *)
Inductive reply : Type :=
| Answer (v : value)
| Fails (e : exn).

Definition result_of_reply (r : reply) : result value :=
  match r with
  | Answer v => Ret v
  | Fails e => Raise e
  end.

(** The surroundings of a vehicle.  The service identifiers are the
    constants of [vw_const.Services], which the vehicle only uses as dict
    keys and path prefixes.  [clock n] is the reading of the [n]-th call of
    [datetime.now(timezone.utc)].  [backend history c] is what the
    connection answers to the call [c] after the events [history].
    [parse_float s] is Python's [float(s)] on a string, [None] when it
    raises [ValueError]. *)
Record env : Type := {
  ACCESS : string;
  TRIP_STATISTICS : string;
  MEASUREMENTS : string;
  HONK_AND_FLASH : string;
  PARKING_POSITION : string;
  CLIMATISATION : string;
  CHARGING : string;
  PARAMETERS : string;
  clock : nat -> Z;
  backend : list event -> call -> reply;
  parse_float : string -> option Q
}.

(** The fields of a [Vehicle] that the modelled methods read or write,
    with the number of clock readings and the events so far. *)
Record world : Type := {
  url : string;
  requests : dict;
  services : dict;
  states : dict;
  discovered : bool;
  ticks : nat;
  trace : list event
}.

Definition with_requests (r : dict) (w : world) : world :=
  {| url := url w; requests := r; services := services w; states := states w;
     discovered := discovered w; ticks := ticks w; trace := trace w |}.

Definition with_services (s : dict) (w : world) : world :=
  {| url := url w; requests := requests w; services := s; states := states w;
     discovered := discovered w; ticks := ticks w; trace := trace w |}.

Definition with_discovered (b : bool) (w : world) : world :=
  {| url := url w; requests := requests w; services := services w;
     states := states w; discovered := b; ticks := ticks w; trace := trace w |}.

Definition with_ticks (n : nat) (w : world) : world :=
  {| url := url w; requests := requests w; services := services w;
     states := states w; discovered := discovered w; ticks := n;
     trace := trace w |}.

Definition with_trace (t : list event) (w : world) : world :=
  {| url := url w; requests := requests w; services := services w;
     states := states w; discovered := discovered w; ticks := ticks w;
     trace := t |}.

(** *** The monad of the methods: state, exceptions, divergence *)

Definition M (A : Type) : Type := world -> result A * world.

Definition ret {A} (a : A) : M A := fun w => (Ret a, w).

Definition bind {A B} (m : M A) (k : A -> M B) : M B :=
  fun w =>
    match m w with
    | (Ret a, w') => k a w'
    | (Raise e, w') => (Raise e, w')
    | (Diverge, w') => (Diverge, w')
    end.

Definition raise {A} (e : exn) : M A := fun w => (Raise e, w).

Definition diverge {A} : M A := fun w => (Diverge, w).

Definition lift {A} (r : result A) : M A := fun w => (r, w).

Definition gets {A} (f : world -> A) : M A := fun w => (Ret (f w), w).

Definition modify (f : world -> world) : M unit := fun w => (Ret tt, f w).

(** [try: m / except Exception as error: handler error]. *)
Definition try_except {A} (m : M A) (handler : exn -> M A) : M A :=
  fun w =>
    match m w with
    | (Raise e, w') => handler e w'
    | other => other
    end.

Declare Scope py_scope.
Delimit Scope py_scope with py.
Notation "x <- m ;; k" := (bind m (fun x => k))
  (at level 61, m at next level, right associativity) : py_scope.
Notation "m ;; k" := (bind m (fun _ => k))
  (at level 61, right associativity) : py_scope.
Local Open Scope py_scope.

(** [timedelta(minutes=n)] in microseconds. *)
Definition minutes (n : Z) : Z := 60000000 * n.

(** [v + timedelta]: defined on a [datetime] only, which keeps its zone. *)
Definition add_timedelta (v : value) (delta : Z) : result value :=
  match v with
  | VTime t => Ret (VTime (t + delta))
  | VZoned t o => Ret (VZoned (t + delta) o)
  | _ => Raise TypeError
  end.

(** The instant of a [datetime]. *)
Definition instant (v : value) : option Z :=
  match v with
  | VTime t => Some t
  | VZoned t _ => Some t
  | _ => None
  end.

(** [a < b] between a [datetime] and a [datetime]: their instants are
    compared, whatever their zones. *)
Definition time_lt (a b : value) : result bool :=
  match instant a, instant b with
  | Some x, Some y => Ret (x <? y)
  | _, _ => Raise TypeError
  end.

Section Methods.

Variable E : env.

(** [datetime.now(timezone.utc)]. *)
Definition now : M Z :=
  fun w => (Ret (clock E (ticks w)), with_ticks (S (ticks w)) w).

(** [await self._connection.<call>]: the answer depends on the history. *)
Definition await_call (c : call) : M value :=
  fun w => (result_of_reply (backend E (trace w) c),
            with_trace (EvCall c :: trace w) w).

(** [await asyncio.sleep(seconds)]. *)
Definition sleep (seconds : Z) : M unit :=
  modify (fun w => with_trace (EvSleep seconds :: trace w) w).

(** [self.vin]. *)
Definition vin : M string := gets url.

(** [self._requests[key] = v]. *)
Definition set_request (key : string) (v : value) : M unit :=
  modify (fun w => with_requests (setitem key v (requests w)) w).

(** [self._requests.get(topic, {})]. *)
Definition request_record (topic : string) : M value :=
  gets (fun w => dget (requests w) topic (VDict [])).

(** [Vehicle._in_progress]: true when a request of the topic is pending
    and not older than three minutes; a stale pending id is popped from
    the stored record. *)
Definition _in_progress (topic : string) (unknown_offset : Z) : M bool :=
  rec <- request_record topic ;;
  id <- lift (get rec "id" (VBool false)) ;;
  if truthy id then
    rec <- request_record topic ;;
    t0 <- now ;;
    timestamp <- lift (get rec "timestamp"
                         (VTime (t0 - minutes unknown_offset))) ;;
    deadline <- lift (add_timedelta timestamp (minutes 3)) ;;
    t1 <- now ;;
    stale <- lift (time_lt deadline (VTime t1)) ;;
    if (stale : bool) then
      rec <- request_record topic ;;
      match rec with
      | VDict d =>
          (if mem "id" d then set_request topic (VDict (remove "id" d))
           else raise (KeyError (VStr "id"))) ;;
          ret false
      | _ => raise AttributeError
      end
    else ret true
  else ret false.

(** [Vehicle.wait_for_request].  [fuel] bounds the depth of the recursion;
    [retry_count] is the Python argument. *)
Fixpoint wait_for_request (fuel : nat) (request : value) (retry_count : Z)
  : M value :=
  match fuel with
  | O => diverge
  | S fuel' =>
      let retry_count := retry_count - 1 in
      if retry_count =? 0 then
        (* the f-string of the log line reads request.requestId *)
        _ <- lift (getattr request "requestId") ;;
        ret (VStr "Timeout")
      else
        try_except
          (v <- vin ;;
           status <- await_call (get_request_status v request) ;;
           set_request "state" status ;;
           if eq_str status "In Progress" then
             sleep 10 ;;
             wait_for_request fuel' request retry_count
           else ret status)
          (fun _ => ret (VStr "Exception"))
  end.

(** The message of the exception of [_handle_response]. *)
Definition failure_message (topic : string) (error_msg : option message)
  : message :=
  match error_msg with
  | Some m => m
  | None => MsgFmt "Failed to perform " (VStr topic) " action"
  end.

(** The first half of the [else] branch of [_handle_response]: the quota
    is noted and the pending request is recorded with its id. *)
Definition record_submission (response : value) (topic : string) : M unit :=
  remaining <- lift (get response "rate_limit_remaining" (VInt (-1))) ;;
  (if negb (eq_int remaining (-1)) then set_request "remaining" remaining
   else ret tt) ;;
  t <- now ;;
  state0 <- lift (get response "state" (VStr "Unknown")) ;;
  id0 <- lift (get response "id" (VInt 0)) ;;
  set_request topic
    (VDict [("timestamp", VTime t); ("status", state0); ("id", id0)]).

(** [Vehicle._handle_response].  The call of [wait_for_request] leaves
    [retry_count] at its default of 18, which bounds the recursion. *)
Definition _handle_response (response : value) (topic : string)
    (error_msg : option message) : M bool :=
  if negb (truthy response) then
    t <- now ;;
    set_request topic (VDict [("status", VStr "Failed"); ("timestamp", VTime t)]) ;;
    raise (Exception (failure_message topic error_msg))
  else
    record_submission response topic ;;
    state <- lift (get response "state" VNone) ;;
    status <- (if eq_str state "Throttled" then ret (VStr "Throttled")
               else
                 id <- lift (get response "id" (VInt 0)) ;;
                 wait_for_request 18 id 18) ;;
    t' <- now ;;
    set_request topic (VDict [("status", status); ("timestamp", VTime t')]) ;;
    ret true.

(** *** Discovery *)

(** The loop of [discover] over the operations of a service:
    [operation = service.get("operations").get(operation_id)] and then
    [operation.get("id", None)], for each key. *)
Fixpoint operation_ids (ops : dict) (l : list string)
  : result (list value) :=
  match l with
  | [] => Ret []
  | operation_id :: l' =>
      (id <- get (dget ops operation_id VNone) "id" VNone ;;
       rest <- operation_ids ops l' ;;
       Ret (id :: rest))%res
  end.

(** The body of the [try] of [discover] up to the final update: the name
    under which the entry is stored and the data collected for it. *)
Definition service_data (service : value) : result (value * dict) :=
  (service_name <- get service "id" VNone ;;
   enabled <- get service "isEnabled" (VBool false) ;;
   if truthy enabled then
     let data := [("active", VBool true)] in
     expiration <- get service "expirationDate" (VBool false) ;;
     let data := if truthy expiration
                 then setitem "expiration" expiration data else data in
     operations <- get service "operations" (VBool false) ;;
     data <- (if truthy operations then
                match operations with
                | VDict ops =>
                    ids <- operation_ids ops (keys ops) ;;
                    Ret (setitem "operations" (VList ids) data)
                | _ => Raise AttributeError
                end
              else Ret data) ;;
     parameters <- get service "parameters" (VBool false) ;;
     (if truthy parameters then
        items <- iterate parameters ;;
        Ret (service_name, setitem "parameters" (VList items) data)
      else Ret (service_name, data))
   else
     _ <- get service "status" (VStr "Unknown") ;;
     Ret (service_name, [("active", VBool false)]))%res.

(** One turn of the loop of [discover] over the keys of the listing. *)
Definition discover_service (capabilities_list : dict) (service_id : string)
  : M unit :=
  try_except
    (known <- gets (fun w => mem service_id (services w)) ;;
     if (known : bool) then
       service <- lift (subscript (VDict capabilities_list) service_id) ;;
       nd <- lift (service_data service) ;;
       svcs <- gets services ;;
       target <- lift (subscript_value svcs (fst nd)) ;;
       updated <- lift (update_method target (VDict (snd nd))) ;;
       match fst nd with
       | VStr service_name =>
           modify (fun w =>
             with_services (setitem service_name updated (services w)) w)
       | _ => ret tt
       end
     else ret tt)
    (fun _ => ret tt).

Fixpoint for_each {A} (l : list A) (body : A -> M unit) : M unit :=
  match l with
  | [] => ret tt
  | x :: l' => body x ;; for_each l' body
  end.

(** [Vehicle.discover]. *)
Definition discover : M unit :=
  v <- vin ;;
  capabilities_response <- await_call (getOperationList v) ;;
  parameters_list <- lift (get capabilities_response "parameters" (VDict [])) ;;
  capabilities_list <-
    lift (get capabilities_response "capabilities" (VDict [])) ;;
  (if truthy parameters_list then
     svcs <- gets services ;;
     target <- lift (subscript (VDict svcs) (PARAMETERS E)) ;;
     updated <- lift (update_method target parameters_list) ;;
     modify (fun w =>
       with_services (setitem (PARAMETERS E) updated (services w)) w)
   else ret tt) ;;
  (if truthy capabilities_list then
     match capabilities_list with
     | VDict c => for_each (keys c) (discover_service c)
     | _ => raise AttributeError
     end
   else ret tt) ;;
  modify (with_discovered true).

(** [self._services.get(service, {}).get("active", False)], the test of
    [set_lock], [get_parkingposition] and [get_trip_last]. *)
Definition service_active (service : string) : M value :=
  svcs <- gets services ;;
  lift (get (dget svcs service (VDict [])) "active" (VBool false)).

(** *** Attribute projections used by the control actions *)

(** [self.attrs]. *)
Definition attrs : M value := gets (fun w => VDict (states w)).

Definition has_path (suffix : string) (service : string) : M bool :=
  a <- attrs ;;
  lift (is_valid_path a (PathStr (service ++ suffix))).

Definition read_path (suffix : string) (service : string) : M value :=
  a <- attrs ;;
  lift (find_path a (PathStr (service ++ suffix))).

Definition is_charging_supported : M bool :=
  has_path ".chargingStatus.value.chargingState" (CHARGING E).

Definition is_charge_max_ac_setting_supported : M bool :=
  valid <- has_path ".chargingSettings.value.maxChargeCurrentAC" (CHARGING E) ;;
  if (valid : bool) then
    value <- read_path ".chargingSettings.value.maxChargeCurrentAC"
               (CHARGING E) ;;
    ret (in_strs value ["reduced"; "maximum"])
  else ret false.

Definition is_climatisation_supported : M bool :=
  has_path ".climatisationStatus.value.climatisationState" (CLIMATISATION E).

Definition is_climatisation_target_temperature_supported : M bool :=
  has_path ".climatisationSettings.value.targetTemperature_C"
    (CLIMATISATION E).

Definition is_climatisation_without_external_power_supported : M bool :=
  has_path ".climatisationSettings.value.climatisationWithoutExternalPower"
    (CLIMATISATION E).

Definition climatisation_without_external_power : M value :=
  read_path ".climatisationSettings.value.climatisationWithoutExternalPower"
    (CLIMATISATION E).

(** [a and b] on two properties: [b] is read only when [a] holds. *)
Definition and_then (a b : M bool) : M bool :=
  x <- a ;; if (x : bool) then b else ret false.

(** [a or b] on two properties: [b] is read only when [a] does not hold. *)
Definition or_else (a b : M bool) : M bool :=
  x <- a ;; if (x : bool) then ret true else b.

Definition is_electric_climatisation_supported : M bool :=
  and_then is_climatisation_supported
    (and_then is_climatisation_target_temperature_supported
       is_climatisation_without_external_power_supported).

Definition is_auxiliary_climatisation_supported : M bool := ret false.

(** [float(n)] on an integer: the conversion overflows when the integer
    rounds to 2^1024 or beyond. *)
Definition float_of_int (z : Z) : result Q :=
  if Z.abs z <? 2 ^ 1024 - 2 ^ 970 then Ret (inject_Z z)
  else Raise OverflowError.

(** [float(v)]. *)
Definition float_of (v : value) : result Q :=
  match v with
  | VBool b => Ret (if b then 1%Q else 0%Q)
  | VInt z => float_of_int z
  | VFloat q => Ret q
  | VStr s =>
      match parse_float E s with
      | Some q => Ret q
      | None => Raise ValueError
      end
  | _ => Raise TypeError
  end.

Definition climatisation_target_temperature : M value :=
  v <- read_path ".climatisationSettings.value.targetTemperature_C"
         (CLIMATISATION E) ;;
  q <- lift (float_of v) ;;
  ret (VFloat q).

(** The loop of [is_window_heater_supported] over the parameters of the
    climatisation service. *)
Fixpoint window_heating_parameter (parameters : list value) : result bool :=
  match parameters with
  | [] => Ret false
  | parameter :: rest =>
      (key <- subscript parameter "key" ;;
       if eq_str key "supportsStartWindowHeating" then
         value <- subscript parameter "value" ;;
         if eq_str value "true" then Ret true
         else window_heating_parameter rest
       else window_heating_parameter rest)%res
  end.

Definition is_window_heater_supported : M bool :=
  svcs <- gets services ;;
  flag <- lift (get (dget svcs (PARAMETERS E) (VDict []))
                  "supportsStartWindowHeating" (VStr "false")) ;;
  if eq_str flag "true" then ret true
  else
    parameters <- lift (get (dget svcs (CLIMATISATION E) (VDict []))
                          "parameters" VNone) ;;
    if truthy parameters then
      items <- lift (iterate parameters) ;;
      lift (window_heating_parameter items)
    else ret false.


(** *** Control actions *)

Definition set_charger (action : value) : M bool :=
  supported <- is_charging_supported ;;
  if (supported : bool) then
    (if negb (in_strs action ["start"; "stop"]) then
       raise (Exception (MsgFmt ("Charging action " ++ dquote) action
                           (dquote ++ " is not supported.")))
     else ret tt) ;;
    v <- vin ;;
    response <- await_call (setCharging v (eq_str action "start")) ;;
    _handle_response response "charging"
      (Some (MsgFmt "Failed to " action " charging"))
  else raise (Exception (MsgText "No charging support.")).

Definition set_charging_settings (action : value) : M bool :=
  supported <- is_charge_max_ac_setting_supported ;;
  if (supported : bool) then
    (if negb (in_strs action ["reduced"; "maximum"]) then
       raise (Exception (MsgFmt ("Charging setting " ++ dquote) action
                           (dquote ++ " is not supported.")))
     else ret tt) ;;
    let data := VDict [("maxChargeCurrentAC", action)] in
    v <- vin ;;
    response <- await_call (setChargingSettings v data) ;;
    _handle_response response "charging"
      (Some (MsgFmt "Failed to " action " charging"))
  else raise (Exception (MsgText "Charging settings are not supported.")).

(** The [temperature] argument of [set_climatisation_temp] is a number:
    an integer or a finite float. *)
Inductive number : Type :=
| NInt (z : Z)
| NFloat (q : Q).

Definition value_of_number (n : number) : value :=
  match n with
  | NInt z => VInt z
  | NFloat q => VFloat q
  end.

(** [15.5 <= x <= 30] on floats. *)
Definition temperature_in_range (x : Q) : bool :=
  Qle_bool (31 # 2) x && Qle_bool x 30.

Definition set_climatisation_temp (temperature : number) : M bool :=
  supported <- or_else is_electric_climatisation_supported
                 is_auxiliary_climatisation_supported ;;
  if (supported : bool) then
    x <- lift (float_of (value_of_number temperature)) ;;
    data <- (if temperature_in_range x then
               x' <- lift (float_of (value_of_number temperature)) ;;
               without_power <- climatisation_without_external_power ;;
               ret (VDict [("targetTemperature", VFloat x');
                           ("targetTemperatureUnit", VStr "celsius");
                           ("climatisationWithoutExternalPower",
                            without_power)])
             else
               raise (Exception
                        (MsgFmt "Set climatisation target temp to "
                           (value_of_number temperature)
                           " is not supported."))) ;;
    set_request "latest" (VStr "Climatisation") ;;
    v <- vin ;;
    response <- await_call (setClimaterSettings v data) ;;
    _handle_response response "climatisation"
      (Some (MsgText "Failed to set temperature"))
  else raise (Exception (MsgText "No climatisation support.")).

Definition set_window_heating (action : value) : M bool :=
  supported <- is_window_heater_supported ;;
  if (supported : bool) then
    (if negb (in_strs action ["start"; "stop"]) then
       raise (Exception (MsgFmt ("Window heater action " ++ dquote) action
                           (dquote ++ " is not supported.")))
     else ret tt) ;;
    set_request "latest" (VStr "Climatisation") ;;
    v <- vin ;;
    response <- await_call (setWindowHeater v (eq_str action "start")) ;;
    _handle_response response "climatisation"
      (Some (MsgFmt "Failed to " action " window heating"))
  else raise (Exception (MsgText "No climatisation support.")).

(** [mode in [True, False]]: equality with a boolean is numeric. *)
Definition is_boolean_like (mode : value) : bool :=
  eq_int mode 1 || eq_int mode 0.

(** [DEFAULT_TARGET_TEMP]. *)
Definition DEFAULT_TARGET_TEMP : Z := 24.

Definition set_battery_climatisation (mode : value) : M bool :=
  supported <- is_climatisation_without_external_power_supported ;;
  if (supported : bool) then
    if is_boolean_like mode then
      current <- climatisation_target_temperature ;;
      temperature <- (match current with
                      | VNone => ret (VInt DEFAULT_TARGET_TEMP)
                      | _ => climatisation_target_temperature
                      end) ;;
      let data := VDict [("targetTemperature", temperature);
                         ("targetTemperatureUnit", VStr "celsius");
                         ("climatisationWithoutExternalPower", mode)] in
      set_request "latest" (VStr "Climatisation") ;;
      v <- vin ;;
      response <- await_call (setClimaterSettings v data) ;;
      _handle_response response "climatisation"
        (Some (MsgText "Failed to set climatisation without external power"))
    else
      raise (Exception
               (MsgFmt ("Set climatisation without external power to "
                          ++ dquote) mode (dquote ++ " is not supported.")))
  else raise (Exception (MsgText "No climatisation support.")).

Definition set_climatisation (action : value) : M bool :=
  supported <- is_electric_climatisation_supported ;;
  if (supported : bool) then
    data <- (if eq_str action "start" then
               without_power <- climatisation_without_external_power ;;
               temperature <- climatisation_target_temperature ;;
               ret (VDict [("climatisationWithoutExternalPower",
                            without_power);
                           ("targetTemperature", temperature);
                           ("targetTemperatureUnit", VStr "celsius")])
             else if eq_str action "stop" then ret (VDict [])
             else raise (Exception
                           (MsgFmt "Invalid climatisation action: " action
                              ""))) ;;
    set_request "latest" (VStr "Climatisation") ;;
    v <- vin ;;
    response <- await_call (setClimater v data (eq_str action "start")) ;;
    _handle_response response "climatisation"
      (Some (MsgFmt "Failed to " action
               " climatisation with electric/auxiliary heater."))
  else raise (Exception (MsgText "No climatisation support.")).

(** [Vehicle.set_lock]: the admission check is made on the topic "lock",
    the response is handled under the topic "access". *)
Definition set_lock (action : value) (spin : value) : M bool :=
  active <- service_active (ACCESS E) ;;
  (if negb (truthy active) then
     raise (Exception (MsgText "Remote lock/unlock is not supported."))
   else ret tt) ;;
  pending <- _in_progress "lock" (-5) ;;
  if (pending : bool) then ret false
  else
    (if negb (in_strs action ["lock"; "unlock"]) then
       raise (Exception (MsgFmt "Invalid lock action: " action ""))
     else ret tt) ;;
    try_except
      (set_request "latest" (VStr "Lock") ;;
       v <- vin ;;
       response <- await_call (setLock v (eq_str action "lock") spin) ;;
       _handle_response response "access"
         (Some (MsgFmt "Failed to " action " vehicle")))
      (fun _ =>
         t <- now ;;
         set_request "lock"
           (VDict [("status", VStr "Exception"); ("timestamp", VTime t)]) ;;
         raise (Exception (MsgText "Lock action failed"))).

(** The control actions that hand the response of their submission to
    [_handle_response], with their arguments. *)
Inductive action : Type :=
| SetCharger (action : value)
| SetChargingSettings (action : value)
| SetClimatisationTemp (temperature : number)
| SetWindowHeating (action : value)
| SetBatteryClimatisation (mode : value)
| SetClimatisation (action : value)
| SetLock (action spin : value).

Definition run (a : action) : M bool :=
  match a with
  | SetCharger x => set_charger x
  | SetChargingSettings x => set_charging_settings x
  | SetClimatisationTemp t => set_climatisation_temp t
  | SetWindowHeating x => set_window_heating x
  | SetBatteryClimatisation m => set_battery_climatisation m
  | SetClimatisation x => set_climatisation x
  | SetLock x spin => set_lock x spin
  end.

(** [Vehicle.__init__]: the request records, each with its own clock
    reading, and the services known to the vehicle. *)
Definition init (vehicle_url : string) : world :=
  let empty_status n :=
    VDict [("status", VStr ""); ("timestamp", VTime (clock E n))] in
  {| url := vehicle_url;
     requests :=
       fold_left (fun d kv => setitem (fst kv) (snd kv) d)
         [("departuretimer", empty_status 0%nat);
          ("batterycharge", empty_status 1%nat);
          ("climatisation", empty_status 2%nat);
          ("refresh", empty_status 3%nat);
          ("lock", empty_status 4%nat);
          ("preheater", empty_status 5%nat);
          ("remaining", VInt (-1));
          ("latest", VStr "");
          ("state", VStr "")] [];
     services :=
       fold_left (fun d kv => setitem (fst kv) (snd kv) d)
         [(ACCESS E, VDict [("active", VBool false)]);
          (TRIP_STATISTICS E, VDict [("active", VBool false)]);
          (MEASUREMENTS E, VDict [("active", VBool false)]);
          (HONK_AND_FLASH E, VDict [("active", VBool false)]);
          (PARKING_POSITION E, VDict [("active", VBool false)]);
          (CLIMATISATION E, VDict [("active", VBool false)]);
          (CHARGING E, VDict [("active", VBool false)]);
          (PARAMETERS E, VDict [])] [];
     states := [];
     discovered := false;
     ticks := 6;
     trace := [] |}.

End Methods.

(** *** Observations on a run *)

(** The events of [n] rounds of polling, most recent first: each round is
    a status query followed by a sleep of ten seconds. *)
Fixpoint polls (v : string) (request : value) (n : nat) : list event :=
  match n with
  | O => []
  | S n' =>
      EvSleep 10 :: EvCall (get_request_status v request) :: polls v request n'
  end.

(** The number of status queries among the events. *)
Fixpoint queries (tr : list event) : nat :=
  match tr with
  | [] => O
  | EvCall (get_request_status _ _) :: tr' => S (queries tr')
  | _ :: tr' => queries tr'
  end.

(** A backend that reports "In Progress" on every status query. *)
Definition always_in_progress (E : env) : Prop :=
  forall history v request,
    backend E history (get_request_status v request)
    = Answer (VStr "In Progress").

(** What a run of [wait_for_request] with [retry_count = n + 1] ends in
    when every query is answered "In Progress": the branch of the timeout
    evaluates [request.requestId] outside of the [try]; the caller's
    [except] turns its exception into "Exception". *)
Definition timeout_outcome (request : value) (n : nat) : result value :=
  match getattr request "requestId" with
  | Ret _ => Ret (VStr "Timeout")
  | Raise e => match n with O => Raise e | S _ => Ret (VStr "Exception") end
  | Diverge => Diverge
  end.

(** What [wait_for_request] leaves alone: it adds events, and of the
    vehicle it only writes the key "state" of the requests. *)
Definition polling_frame (w w' : world) : Prop :=
  (exists evs, trace w' = (evs ++ trace w)%list) /\
  url w' = url w /\ services w' = services w /\ states w' = states w /\
  discovered w' = discovered w /\ ticks w' = ticks w /\
  (forall k, k <> "state" -> lookup k (requests w') = lookup k (requests w)).

(** A computation is a reader when it leaves the vehicle as it found it
    and never diverges. *)
Definition reader {A} (m : M A) : Prop :=
  forall w, snd (m w) = w /\ fst (m w) <> Diverge.


(** The request that [set_climatisation_temp] sends for the float [x]. *)
Definition temperature_request (x : Q) (without_power : value) : value :=
  VDict [("targetTemperature", VFloat x);
         ("targetTemperatureUnit", VStr "celsius");
         ("climatisationWithoutExternalPower", without_power)].

Section Vocabulary.

Variable E : env.

(** The vehicle when polling starts: the pending request is recorded under
    the topic, with its id. *)
Definition submitted (d : dict) (topic : string) (w : world) : world :=
  let remaining := dget d "rate_limit_remaining" (VInt (-1)) in
  let noted := if negb (eq_int remaining (-1))
               then setitem "remaining" remaining (requests w)
               else requests w in
  with_requests
    (setitem topic
       (VDict [("timestamp", VTime (clock E (ticks w)));
               ("status", dget d "state" (VStr "Unknown"));
               ("id", dget d "id" (VInt 0))])
       noted)
    (with_ticks (S (ticks w)) w).

(** The vehicle when [_handle_response] returns: the record of the topic
    is replaced by the status and a fresh timestamp. *)
Definition settled (status : value) (topic : string) (w : world) : world :=
  with_requests
    (setitem topic
       (VDict [("status", status); ("timestamp", VTime (clock E (ticks w)))])
       (requests w))
    (with_ticks (S (ticks w)) w).

(** The tail that the control actions share: the call of the connection
    and the handling of its response. *)
Definition submit (c : call) (topic : string) (error_msg : option message)
  : M bool :=
  response <- await_call E c ;;
  _handle_response E response topic error_msg.






(** The parameter bag of a listing can be merged when it is absent or
    empty, or when it is a mapping and the vehicle holds a record for the
    parameters. *)
Definition parameters_mergeable (w : world) (parameters : value) : Prop :=
  truthy parameters = false \/
  exists p target,
    parameters = VDict p /\
    lookup (PARAMETERS E) (services w) = Some (VDict target).

End Vocabulary.

End Vehicle.

(** ** Scenarios *)

Module Scenarios.

Import Vehicle.

(** The identifiers of [vw_const.Services] as the backend names them, a
    clock that advances one minute per reading, and a given backend. *)
Definition env_with (answers : list event -> call -> reply) : env :=
  {| ACCESS := "access";
     TRIP_STATISTICS := "tripStatistics";
     MEASUREMENTS := "measurements";
     HONK_AND_FLASH := "honkAndFlash";
     PARKING_POSITION := "parkingPosition";
     CLIMATISATION := "climatisation";
     CHARGING := "charging";
     PARAMETERS := "parameters";
     clock := fun n => minutes (Z.of_nat n);
     backend := answers;
     parse_float := fun _ => None |}.

(** A backend whose answer depends on the call alone. *)
Definition env_of (answers : call -> reply) : env :=
  env_with (fun _ c => answers c).

(** Every submission is accepted with the request id 7; every status
    query is answered "In Progress". *)
Definition busy_backend (c : call) : reply :=
  match c with
  | get_request_status _ _ => Answer (VStr "In Progress")
  | getOperationList _ => Answer (VDict [])
  | _ => Answer (VDict [("id", VInt 7)])
  end.

(** Every submission is accepted with the request id 7; the status query
    fails. *)
Definition failing_poll_backend (c : call) : reply :=
  match c with
  | get_request_status _ _ => Fails (Exception (MsgText "connection lost"))
  | getOperationList _ => Answer (VDict [])
  | _ => Answer (VDict [("id", VInt 7)])
  end.

(** A freshly created vehicle on which a lock request with the id 7 was
    recorded at the instant [t0]. *)
Definition pending_lock (E : env) (t0 : Z) : world :=
  with_requests
    (setitem "lock"
       (VDict [("timestamp", VTime t0); ("status", VStr "In Progress");
               ("id", VInt 7)])
       (requests (init E "WVWZZZ")))
    (init E "WVWZZZ").

(** A first listing with the access service enabled, then listings with
    the service disabled. *)
Definition listing_enabled : value :=
  VDict
    [("capabilities",
      VDict
        [("access",
          VDict [("id", VStr "access"); ("isEnabled", VBool true);
                 ("operations",
                  VDict [("lock", VDict [("id", VStr "lock")]);
                         ("unlock", VDict [("id", VStr "unlock")])])])])].

Definition listing_disabled : value :=
  VDict
    [("capabilities",
      VDict
        [("access",
          VDict [("id", VStr "access"); ("isEnabled", VBool false);
                 ("status", VInt 1004)])])].

Definition relisting_backend (history : list event) (c : call) : reply :=
  match c with
  | getOperationList _ =>
      match history with
      | [] => Answer listing_enabled
      | _ => Answer listing_disabled
      end
  | _ => busy_backend c
  end.

(** The same, with a disabled entry that does not repeat the identifier
    of the service in an "id" field. *)
Definition listing_disabled_without_id : value :=
  VDict
    [("capabilities",
      VDict
        [("access",
          VDict [("isEnabled", VBool false); ("status", VInt 1004)])])].

Definition relisting_without_id_backend (history : list event) (c : call)
  : reply :=
  match c with
  | getOperationList _ =>
      match history with
      | [] => Answer listing_enabled
      | _ => Answer listing_disabled_without_id
      end
  | _ => busy_backend c
  end.

(** A vehicle on which discovery found the access service active. *)
Definition remote_vehicle (E : env) : world :=
  with_services
    (setitem (ACCESS E) (VDict [("active", VBool true)])
       (services (init E "WVWZZZ")))
    (init E "WVWZZZ").

(** A vehicle whose last status fetch reported the climatisation. *)
Definition climate_vehicle (E : env) : world :=
  {| url := "WVWZZZ";
     requests := requests (init E "WVWZZZ");
     services := services (init E "WVWZZZ");
     states :=
       [(CLIMATISATION E,
         VDict
           [("climatisationStatus",
             VDict [("value",
                     VDict [("climatisationState", VStr "off")])]);
            ("climatisationSettings",
             VDict [("value",
                     VDict [("targetTemperature_C", VFloat (43 # 2));
                            ("climatisationWithoutExternalPower",
                             VBool false)])])])];
     discovered := true;
     ticks := 6;
     trace := [] |}.

End Scenarios.

(** ** utilities.py: slugs *)

Module Slugs.

(** The strings handled here are ASCII: on them [str.lower] only maps
    the letters A to Z, which is what [lower] does. *)
Definition is_ascii (s : string) : bool :=
  forallb (fun c => (nat_of_ascii c <? 128)%nat) (list_ascii_of_string s).

(** The character class [A-Z]. *)
Definition is_upper (c : ascii) : bool :=
  ((65 <=? nat_of_ascii c) && (nat_of_ascii c <=? 90))%nat.

Definition to_lower (c : ascii) : ascii :=
  if is_upper c then ascii_of_nat (nat_of_ascii c + 32) else c.

(** [re.sub("([A-Z])", "_\\1", s)]: an underscore before every capital. *)
Fixpoint underscore_capitals (s : string) : string :=
  match s with
  | EmptyString => EmptyString
  | String c rest =>
      if is_upper c then String "_" (String c (underscore_capitals rest))
      else String c (underscore_capitals rest)
  end.

(** [s.lower()]. *)
Fixpoint lower (s : string) : string :=
  match s with
  | EmptyString => EmptyString
  | String c rest => String (to_lower c) (lower rest)
  end.

(** [s.lstrip(c)] for one character. *)
Fixpoint lstrip (c : ascii) (s : string) : string :=
  match s with
  | EmptyString => EmptyString
  | String c' rest => if Ascii.eqb c' c then lstrip c rest else s
  end.

Definition camel2slug (s : string) : string :=
  lstrip "_" (lower (underscore_capitals s)).

(** No capital letter occurs in the string. *)
Fixpoint no_capitals (s : string) : bool :=
  match s with
  | EmptyString => true
  | String c rest => negb (is_upper c) && no_capitals rest
  end.

(** The string does not begin with an underscore. *)
Definition no_leading_underscore (s : string) : bool :=
  match s with
  | String c _ => negb (Ascii.eqb c "_")
  | EmptyString => true
  end.

End Slugs.

(** ** vw_vehicle.py: status properties, expiry and the history of a vehicle *)

Module Readings.

Import Vehicle.
Local Open Scope py_scope.

Definition with_states (s : dict) (w : world) : world :=
  {| url := url w; requests := requests w; services := services w;
     states := s; discovered := discovered w; ticks := ticks w;
     trace := trace w |}.

(** *** Status of the action requests *)

(** [self._requests.get(topic, {}).get("status", "None")]. *)
Definition action_status (topic : string) : M value :=
  rec <- request_record topic ;;
  lift (get rec "status" (VStr "None")).

Definition refresh_action_status : M value := action_status "refresh".
Definition climater_action_status : M value := action_status "climatisation".


(** The sections that [request_results] and [request_results_last_updated]
    list. *)
Definition result_sections : list string :=
  ["departuretimer"; "batterycharge"; "climatisation"; "refresh"; "lock";
   "preheater"].

(** The loop of [request_results] over the sections of the requests. *)
Fixpoint collect_results (r : dict) (sections : list string) (data : dict)
  : result dict :=
  match sections with
  | [] => Ret data
  | section :: rest =>
      if existsb (String.eqb section) result_sections then
        (rec <- subscript (VDict r) section ;;
         status <- get rec "status" (VStr "Unknown") ;;
         collect_results r rest (setitem section status data))%res
      else collect_results r rest data
  end.

Definition request_results : M value :=
  r <- gets requests ;;
  let data := [("latest", dget r "latest" VNone);
               ("state", dget r "state" VNone)] in
  data <- lift (collect_results r (keys r) data) ;;
  ret (VDict data).


Section Str.

(** [repr v] is Python's [str(v)] on a value that is not a string. *)
Variable repr : value -> string.



End Str.

Section Methods.

Variable E : env.

(** The getter of [Vehicle.requests_remaining] with the two setters it
    goes through; [datetime.utcnow()] is a reading of the clock. *)
Definition requests_remaining : M value :=
  limit <- gets (fun w => dget (states w) "rate_limit_remaining"
                            (VBool false)) ;;
  (if truthy limit then
     value <- gets (fun w => dget (states w) "rate_limit_remaining" VNone) ;;
     set_request "remaining" value ;;
     t <- now E ;;
     set_request "remaining_updated" (VTime t) ;;
     a <- attrs ;;
     match a with
     | VDict s =>
         if mem "rate_limit_remaining" s then
           modify (with_states (remove "rate_limit_remaining" s))
         else raise (KeyError (VStr "rate_limit_remaining"))
     | _ => raise AttributeError
     end
   else ret tt) ;;
  r <- gets requests ;;
  lift (subscript (VDict r) "remaining").

(** *** Expiry of a service *)

(** [timedelta(days=n)] in microseconds. *)
Definition days (n : Z) : Z := 86400000000 * n.

(** [v.replace(tzinfo=None)]: a [datetime] keeps its fields and loses its
    zone, so that what they read is from then on taken as it stands; the
    method of a [str] takes no keyword argument, and nothing else has
    one. *)
Definition replace_tzinfo (v : value) : result value :=
  match v with
  | VTime t => Ret (VTime t)
  | VZoned t o => Ret (VTime (t + o))
  | VStr _ => Raise TypeError
  | _ => Raise AttributeError
  end.

(** [a >= b] between the [datetime] without a zone that reads [a] and any
    value: a [datetime] with a zone other than UTC cannot be compared
    with it. *)
Definition time_ge (a : Z) (b : value) : result bool :=
  match b with
  | VTime y => Ret (y <=? a)
  | _ => Raise TypeError
  end.

(** [self._services.get(service, {}).get("expiration", False)]. *)
Definition service_expiration (service : string) : M value :=
  svcs <- gets services ;;
  lift (get (dget svcs service (VDict [])) "expiration" (VBool false)).

(** [Vehicle.expired]. *)
Definition expired (service : string) : M bool :=
  try_except
    (t <- now E ;;
     known <- service_expiration service ;;
     expiration <-
       (if truthy known then
          expiration <- service_expiration service ;;
          if negb (truthy expiration) then
            t' <- now E ;; ret (VTime (t' + days 1))
          else ret expiration
        else t' <- now E ;; ret (VTime (t' + days 1))) ;;
     expiration <- lift (replace_tzinfo expiration) ;;
     late <- lift (time_ge t expiration) ;;
     if (late : bool) then
       modify (with_discovered false) ;;
       ret true
     else ret false)
    (fun _ => ret false).

(** The date that [expired] compares with the clock: what the fields of
    the expiration in the record of the service read, when it is a
    [datetime]. *)
Definition expiration_date (service : string) (w : world) : option Z :=
  match dget (services w) service (VDict []) with
  | VDict rec =>
      match lookup "expiration" rec with
      | Some (VTime t) => Some t
      | Some (VZoned t o) => Some (t + o)
      | _ => None
      end
  | _ => None
  end.

(** *** The lock entity and the lock sensor *)

Definition door_lock_status : string := ".accessStatus.value.doorLockStatus".

Definition is_door_locked_supported : M bool :=
  active <- service_active (ACCESS E) ;;
  if negb (truthy active) then ret false
  else has_path door_lock_status (ACCESS E).

Definition is_door_locked_sensor_supported : M bool :=
  active <- service_active (ACCESS E) ;;
  if truthy active then ret false
  else has_path door_lock_status (ACCESS E).

Definition door_locked : M bool :=
  status <- read_path door_lock_status (ACCESS E) ;;
  ret (eq_str status "locked").

Definition door_locked_sensor : M bool := door_locked.

(** *** The charger current *)

Section Int.

(** [parse_int s] is Python's [int(s)] on a string, [None] when it raises
    [ValueError]. *)
Variable parse_int : string -> option Z.

(** [int(v)]: a float is truncated towards zero. *)
Definition int_of (v : value) : result Z :=
  match v with
  | VBool b => Ret (if b then 1 else 0)
  | VInt z => Ret z
  | VFloat q => Ret (Z.quot (Qnum q) (Z.pos (Qden q)))
  | VStr s =>
      match parse_int s with
      | Some z => Ret z
      | None => Raise ValueError
      end
  | _ => Raise TypeError
  end.

(** The request that [set_charger_current] builds for the current [n]. *)
Definition charger_current_request (n : Z) : value :=
  VDict [("action",
          VDict [("settings", VDict [("maxChargeCurrent", VInt n)]);
                 ("type", VStr "setSettings")])].

(** [Vehicle.set_charger_current]: the request it builds is handed to
    [set_charger] as the action. *)
Definition set_charger_current (value : value) : M bool :=
  supported <- is_charging_supported E ;;
  if (supported : bool) then
    n <- lift (int_of value) ;;
    data <- (if (1 <=? n) && (n <=? 255) then
               n' <- lift (int_of value) ;;
               ret (charger_current_request n')
             else
               raise (Exception
                        (MsgFmt "Set charger maximum current to " value
                           " is not supported."))) ;;
    set_charger E data
  else raise (Exception (MsgText "No charger support.")).

End Int.

End Methods.

End Readings.

Import Readings.

(** ** vw_vehicle.py: the refresh of the data *)

Module Refresh.

Import Vehicle.
Local Open Scope py_scope.

Section Methods.

Variable E : env.

(** [strptime s] is what the fields of
    [datetime.strptime(s, "%Y-%m-%dT%H:%M:%S.%fZ")] read, in microseconds
    since the epoch, and [None] when the call raises [ValueError]. *)
Variable strptime : string -> option Z.

(** [Vehicle.get_selectivestatus]: [self._states.update(data)] on data
    that is not falsy. *)
Definition get_selectivestatus (services : list string) : M unit :=
  v <- vin ;;
  data <- await_call E (getSelectiveStatus v services) ;;
  if truthy data then
    s <- gets states ;;
    updated <- lift (update_method (VDict s) data) ;;
    match updated with
    | VDict s' => modify (with_states s')
    | _ => ret tt
    end
  else ret tt.

Definition is_battery_level_supported : M bool :=
  has_path ".batteryStatus.value.currentSOC_pct" (CHARGING E).

Definition charging : M bool :=
  cstate <- read_path ".chargingStatus.value.chargingState" (CHARGING E) ;;
  ret (eq_str cstate "charging").

Definition battery_level_last_updated : M value :=
  read_path ".batteryStatus.value.carCapturedTimestamp" (CHARGING E).

Definition is_distance_supported : M bool :=
  has_path ".odometerStatus.value.odometer" (MEASUREMENTS E).

Definition distance_last_updated : M value :=
  read_path ".odometerStatus.value.carCapturedTimestamp" (MEASUREMENTS E).

(** [datetime.strptime(v, ...).replace(microsecond=0)
    .replace(tzinfo=timezone.utc)]: the time that the string gives, cut
    to the second and taken as UTC. *)
Definition parse_timestamp (v : value) : result value :=
  match v with
  | VStr s =>
      match strptime s with
      | Some t => Ret (VTime (t - t mod 1000000))
      | None => Raise ValueError
      end
  | _ => Raise TypeError
  end.

(** [Vehicle.last_connected]; without a battery that is charging and
    without an odometer the property ends without a [return]. *)
Definition last_connected : M value :=
  on_charge <- and_then is_battery_level_supported charging ;;
  if (on_charge : bool) then battery_level_last_updated
  else
    supported <- is_distance_supported ;;
    if (supported : bool) then
      updated <- distance_last_updated ;;
      match updated with
      | VStr _ =>
          updated <- distance_last_updated ;;
          lift (parse_timestamp updated)
      | _ => distance_last_updated
      end
    else ret VNone.

(** [Vehicle.wait_for_data_refresh].  [fuel] bounds the depth of the
    recursion; [retry_count] is the Python argument.  The time of the
    trigger, with which [last_connected] is compared, is the one that
    [set_refresh] has written: a [datetime]. *)
Fixpoint wait_for_data_refresh (fuel : nat) (retry_count : Z) : M value :=
  match fuel with
  | O => diverge
  | S fuel' =>
      let retry_count := retry_count - 1 in
      if retry_count =? 0 then ret (VStr "Timeout")
      else
        try_except
          (get_selectivestatus [MEASUREMENTS E] ;;
           rec <- request_record "refresh" ;;
           refresh_trigger_time <- lift (get rec "timestamp" VNone) ;;
           connected <- last_connected ;;
           earlier <- lift (time_lt connected refresh_trigger_time) ;;
           if (earlier : bool) then
             sleep 10 ;;
             wait_for_data_refresh fuel' retry_count
           else ret (VStr "successful"))
          (fun _ => ret (VStr "Exception"))
  end.

(** [Vehicle.set_refresh].  The [try] gives [Some true] where the code
    returns True from inside it, and [None] where the code goes on to the
    [raise] after it.  With a status code other than 204 and 429 the
    variable [status] is read before it is bound.  The call of
    [wait_for_data_refresh] leaves [retry_count] at its default of 18. *)
Definition set_refresh : M bool :=
  pending <- _in_progress E "refresh" (-5) ;;
  if (pending : bool) then ret false
  else
    done <-
      try_except
        (set_request "latest" (VStr "Refresh") ;;
         v <- vin ;;
         response <- await_call E (wakeUpVehicle v) ;;
         if truthy response then
           code <- lift (getattr response "status") ;;
           status <-
             (if eq_int code 204 then
                set_request "state" (VStr "in_progress") ;;
                t <- now E ;;
                set_request "refresh"
                  (VDict [("timestamp", VTime t);
                          ("status", VStr "in_progress");
                          ("id", VInt 0)]) ;;
                wait_for_data_refresh 18 18
              else
                code <- lift (getattr response "status") ;;
                if eq_int code 429 then ret (VStr "Throttled")
                else
                  (* the f-string of the log line reads response.status *)
                  _ <- lift (getattr response "status") ;;
                  raise UnboundLocalError) ;;
           set_request "state" status ;;
           t <- now E ;;
           set_request "refresh"
             (VDict [("status", status); ("timestamp", VTime t)]) ;;
           ret (Some true)
         else ret None)
        (fun _ =>
           t <- now E ;;
           set_request "refresh"
             (VDict [("status", VStr "Exception"); ("timestamp", VTime t)]) ;;
           ret None) ;;
    match done with
    | Some b => ret b
    | None => raise (Exception (MsgText "Data refresh failed"))
    end.

(** *** What a refresh comes to *)






End Methods.

(** *** The actions that are left to be implemented *)





(** A computation goes on when it does not diverge and only adds events
    to the trace. *)
Definition goes_on {A} (m : M A) : Prop :=
  forall w,
    fst (m w) <> Diverge /\
    exists evs, trace (snd (m w)) = (evs ++ trace w)%list.

End Refresh.

Import Refresh.

(** ** The history of a vehicle *)

Module History.

Import Vehicle.



(** What the merging steps of [discover] leave alone: everything but the
    records of the services, of which none is added or removed. *)
Definition services_only (w w' : world) : Prop :=
  url w' = url w /\ requests w' = requests w /\ states w' = states w /\
  discovered w' = discovered w /\ ticks w' = ticks w /\
  trace w' = trace w /\ keys (services w') = keys (services w).

(** The answers to [getOperationList] whose bag of parameters is absent,
    falsy or a mapping: for these, [update_method] is the merge that
    Python makes of the bag. *)
Definition mapping_bag (r : reply) : Prop :=
  forall response bag,
    r = Answer response ->
    get response "parameters" (VDict []) = Ret bag ->
    truthy bag = false \/ exists p, bag = VDict p.


Section Reachable.

Variable E : env.



End Reachable.

(** The test that each control action makes of its argument. *)
Definition accepted (E : env) (a : action) : bool :=
  match a with
  | SetCharger x => in_strs x ["start"; "stop"]
  | SetChargingSettings x => in_strs x ["reduced"; "maximum"]
  | SetClimatisationTemp t =>
      match float_of E (value_of_number t) with
      | Ret x => temperature_in_range x
      | _ => false
      end
  | SetWindowHeating x => in_strs x ["start"; "stop"]
  | SetBatteryClimatisation mode => is_boolean_like mode
  | SetClimatisation x => eq_str x "start" || eq_str x "stop"
  | SetLock x _ => in_strs x ["lock"; "unlock"]
  end.

End History.

(** ** More scenarios *)

Module Listings.

Import Vehicle.
Import Scenarios.

(** A listing with an entry that is not a mapping. *)
Definition listing_malformed : dict :=
  [("capabilities",
    VDict [("access", VInt 3);
           ("charging",
            VDict [("id", VStr "charging"); ("isEnabled", VBool true)])])].

Definition malformed_backend (c : call) : reply :=
  match c with
  | getOperationList _ => Answer (VDict listing_malformed)
  | _ => busy_backend c
  end.

(** The access service is listed as enabled; the backend answers a lock
    request with nothing. *)
Definition refusing_backend (c : call) : reply :=
  match c with
  | getOperationList _ => Answer listing_enabled
  | setLock _ _ _ => Answer VNone
  | _ => busy_backend c
  end.

(** The wake-up is accepted with the status code 204; the fetch that
    follows brings nothing. *)
Definition waking_backend (c : call) : reply :=
  match c with
  | wakeUpVehicle _ => Answer (VObj [("status", VInt 204)])
  | getSelectiveStatus _ _ => Answer (VDict [])
  | _ => busy_backend c
  end.

End Listings.

Import Listings.

Import History.

Import Vehicle.
Import Scenarios.
Import Slugs.
Local Open Scope py_scope.

(** * Properties *)

(** ** The path query engine *)

Section PathQueries.

Lemma find_path_list_app (src : value) (prefix rest : list string) :
  find_path_list src (prefix ++ rest) =
  (v <- find_path_list src prefix ;; find_path_list v rest)%res.
Proof.
  revert src; induction prefix as [|seg prefix IH]; intros src; simpl.
  - reflexivity.
  - destruct (subscript src seg); simpl; auto.
Qed.

Lemma find_path_never_diverges (src : value) (p : path) :
  find_path src p <> Diverge.
Proof.
  assert (L : forall segs v, find_path_list v segs <> Diverge).
  { induction segs as [|seg segs IH]; intros v; simpl; [discriminate|].
    destruct v; simpl; try discriminate.
    destruct (lookup seg d); [apply IH | discriminate]. }
  unfold find_path.
  destruct (path_falsy p); [discriminate|].
  destruct p; [discriminate | apply L | apply L].
Qed.

Lemma is_valid_path_true_inv (d : value) (p : path) :
  is_valid_path d p = Ret true -> exists v, find_path d p = Ret v.
Proof.
  unfold is_valid_path.
  destruct (find_path d p) as [v|e|]; [eauto| |discriminate].
  destruct (is_KeyError e); discriminate.
Qed.

(** C6, as the code has it: [is_valid_path] answers True exactly when
    [find_path] returns a value (None included), answers False exactly when
    [find_path] raises KeyError, and in every other case raises what
    [find_path] raises. *)
Theorem is_valid_path_follows_find_path (d : value) (p : path) :
  (is_valid_path d p = Ret true <-> exists v, find_path d p = Ret v) /\
  (is_valid_path d p = Ret false <->
     exists k, find_path d p = Raise (KeyError k)) /\
  (forall e, is_KeyError e = false ->
     find_path d p = Raise e -> is_valid_path d p = Raise e).
Proof.
  unfold is_valid_path.
  pose proof (find_path_never_diverges d p) as ND.
  destruct (find_path d p) as [v|e|]; [| |contradiction].
  - repeat split; intros; eauto; try discriminate.
    match goal with H : exists _, _ |- _ => destruct H; discriminate end.
  - destruct e; simpl; repeat split; intros; eauto; try discriminate;
      try (match goal with H : exists _, _ |- _ => destruct H; discriminate end);
      try (inversion H0; subst; simpl in *; try discriminate; reflexivity).
Qed.

(** A path that resolves to an explicit None exists. *)
Example is_valid_path_of_none :
  find_path (VDict [("a", VNone)]) (PathStr "a") = Ret VNone /\
  is_valid_path (VDict [("a", VNone)]) (PathStr "a") = Ret true.
Proof. split; reflexivity. Qed.

(** C6 as stated fails: on the document {a: 1} and the path a.b,
    [find_path] does not fail with KeyError, and [is_valid_path] does not
    return True. *)
Lemma is_valid_path_not_true_without_KeyError :
  (forall k, find_path (VDict [("a", VInt 1)]) (PathStr "a.b")
             <> Raise (KeyError k)) /\
  is_valid_path (VDict [("a", VInt 1)]) (PathStr "a.b") <> Ret true.
Proof. split; [intros k|]; vm_compute; discriminate. Qed.

(** C10: when a prefix of the path resolves to a value that is not a
    mapping and a further segment follows, [is_valid_path] returns no
    boolean: the TypeError of the subscript leaves it. *)
Theorem is_valid_path_raises_TypeError
    (d : value) (s : string) (prefix : list string) (seg : string)
    (rest : list string) (v : value) :
  s <> "" ->
  split "." s = (prefix ++ seg :: rest)%list ->
  find_path_list d prefix = Ret v ->
  (forall m, v <> VDict m) ->
  is_valid_path d (PathStr s) = Raise TypeError /\
  (forall b, is_valid_path d (PathStr s) <> Ret b).
Proof.
  intros Hs Hsplit Hprefix Hv.
  assert (E : is_valid_path d (PathStr s) = Raise TypeError).
  { unfold is_valid_path, find_path; simpl.
    destruct (String.eqb_spec s ""); [contradiction|].
    rewrite Hsplit, find_path_list_app, Hprefix; simpl.
    destruct v; simpl; try reflexivity.
    exfalso; eapply Hv; reflexivity. }
  split; [exact E | intros b; rewrite E; discriminate].
Qed.

Lemma is_valid_path_raises_TypeError_witness :
  is_valid_path (VDict [("a", VInt 1)]) (PathStr "a.b") = Raise TypeError /\
  (forall b, is_valid_path (VDict [("a", VInt 1)]) (PathStr "a.b") <> Ret b).
Proof.
  apply (is_valid_path_raises_TypeError
           (VDict [("a", VInt 1)]) "a.b" ["a"] "b" [] (VInt 1)).
  - discriminate.
  - reflexivity.
  - reflexivity.
  - intros m; discriminate.
Defined.

End PathQueries.

(** ** Dicts *)

Section Dicts.

Lemma lookup_setitem_eq (k : string) (v : value) (d : dict) :
  lookup k (setitem k v d) = Some v.
Proof.
  induction d as [|[k' v'] d IH]; simpl.
  - now rewrite String.eqb_refl.
  - destruct (String.eqb k k') eqn:Ek; simpl; rewrite ?String.eqb_refl, ?Ek; auto.
Qed.

Lemma lookup_setitem_ne (k k' : string) (v : value) (d : dict) :
  k <> k' -> lookup k' (setitem k v d) = lookup k' d.
Proof.
  intros Hne. induction d as [|[k0 v0] d IH]; simpl.
  - destruct (String.eqb_spec k' k); congruence.
  - destruct (String.eqb_spec k k0); simpl.
    + subst k0. destruct (String.eqb_spec k' k); congruence.
    + destruct (String.eqb_spec k' k0); auto.
Qed.

Lemma lookup_remove_eq (k : string) (d : dict) :
  lookup k (remove k d) = None.
Proof.
  induction d as [|[k' v'] d IH]; simpl; auto.
  destruct (String.eqb k k') eqn:Ek; simpl; rewrite ?Ek; auto.
Qed.

Lemma lookup_remove_ne (k k' : string) (d : dict) :
  k <> k' -> lookup k' (remove k d) = lookup k' d.
Proof.
  intros Hne. induction d as [|[k0 v0] d IH]; simpl; auto.
  destruct (String.eqb_spec k k0); simpl.
  - subst k0. destruct (String.eqb_spec k' k); congruence.
  - destruct (String.eqb_spec k' k0); auto.
Qed.

Lemma dget_lookup (d : dict) (k : string) (default v : value) :
  lookup k d = Some v -> dget d k default = v.
Proof. unfold dget; now intros ->. Qed.

Lemma mem_lookup (d : dict) (k : string) (v : value) :
  lookup k d = Some v -> mem k d = true.
Proof. unfold mem; now intros ->. Qed.

Lemma add_timedelta_never_diverges (v : value) (delta : Z) :
  add_timedelta v delta <> Diverge.
Proof. destruct v; discriminate. Qed.

Lemma time_lt_never_diverges (a b : value) : time_lt a b <> Diverge.
Proof. destruct a, b; discriminate. Qed.

Lemma getattr_never_diverges (v : value) (name : string) :
  getattr v name <> Diverge.
Proof.
  destruct v; simpl; try discriminate.
  destruct (lookup name attrs0); discriminate.
Qed.

End Dicts.

(** ** The admission check *)

Section Admission.

Variable E : env.

(** C3: a topic whose record holds a pending id and the timestamp [t0] is
    reported in progress (the submission is skipped) as long as the clock
    reads at most three minutes past [t0]; once it reads more, the check
    removes the id from the record, leaves the rest of the record as it
    is, and reports that the submission may go ahead. *)
Theorem in_progress_admission_gate
    (w : world) (topic : string) (unknown_offset : Z)
    (rec : dict) (id : value) (t0 : Z) :
  lookup topic (requests w) = Some (VDict rec) ->
  lookup "id" rec = Some id ->
  truthy id = true ->
  lookup "timestamp" rec = Some (VTime t0) ->
  let t1 := clock E (S (ticks w)) in
  (t1 <= t0 + minutes 3 ->
     _in_progress E topic unknown_offset w
     = (Ret true, with_ticks (S (S (ticks w))) w)) /\
  (t0 + minutes 3 < t1 ->
     exists w',
       _in_progress E topic unknown_offset w = (Ret false, w') /\
       lookup topic (requests w') = Some (VDict (remove "id" rec)) /\
       lookup "id" (remove "id" rec) = None /\
       (forall k, k <> "id" -> lookup k (remove "id" rec) = lookup k rec) /\
       (forall other, other <> topic ->
          lookup other (requests w') = lookup other (requests w))).
Proof.
  intros Htopic Hid Htruthy Hts t1.
  assert (Hrec : dget (requests w) topic (VDict []) = VDict rec)
    by (apply dget_lookup; exact Htopic).
  unfold _in_progress, request_record, bind, gets, lift, now, ret; simpl.
  rewrite Hrec; simpl.
  rewrite (dget_lookup _ _ _ _ Hid), Htruthy; simpl.
  rewrite Hrec; simpl.
  rewrite (dget_lookup _ _ _ _ Hts); simpl.
  fold t1. split; intros Ht.
  - replace (t0 + minutes 3 <? t1) with false by (symmetry; apply Z.ltb_ge; lia).
    reflexivity.
  - replace (t0 + minutes 3 <? t1) with true by (symmetry; apply Z.ltb_lt; lia).
    simpl; rewrite Hrec; simpl.
    unfold set_request, modify; rewrite (mem_lookup _ _ _ Hid); simpl.
    eexists; split; [reflexivity|]; simpl.
    split; [apply lookup_setitem_eq|].
    split; [apply lookup_remove_eq|].
    split; [intros k Hk; apply lookup_remove_ne; congruence|].
    intros other Hother; apply lookup_setitem_ne; congruence.
Qed.

End Admission.

(** A record stamped one minute before the check is still in progress; a
    record stamped ten minutes before loses its id and lets the submission
    through. *)
Lemma in_progress_admission_gate_witness :
  _in_progress (env_of busy_backend) "lock" 0
    (pending_lock (env_of busy_backend) (minutes 6))
  = (Ret true,
     with_ticks 8 (pending_lock (env_of busy_backend) (minutes 6))) /\
  exists w',
    _in_progress (env_of busy_backend) "lock" 0
      (pending_lock (env_of busy_backend) (minutes (-3)))
    = (Ret false, w') /\
    lookup "lock" (requests w')
    = Some (VDict [("timestamp", VTime (minutes (-3)));
                   ("status", VStr "In Progress")]).
Proof.
  split.
  - apply (in_progress_admission_gate (env_of busy_backend)
             (pending_lock (env_of busy_backend) (minutes 6)) "lock" 0
             [("timestamp", VTime (minutes 6));
              ("status", VStr "In Progress"); ("id", VInt 7)]
             (VInt 7) (minutes 6));
      try reflexivity.
    vm_compute; discriminate.
  - destruct (in_progress_admission_gate (env_of busy_backend)
                (pending_lock (env_of busy_backend) (minutes (-3))) "lock" 0
                [("timestamp", VTime (minutes (-3)));
                 ("status", VStr "In Progress"); ("id", VInt 7)]
                (VInt 7) (minutes (-3))
                eq_refl eq_refl eq_refl eq_refl) as [_ Hstale].
    destruct Hstale as [w' [Hrun [Hrec _]]]; [vm_compute; reflexivity|].
    exists w'; split; [exact Hrun | exact Hrec].
Defined.

(** ** The polling loop *)

Section Polling.

Variable E : env.

Lemma polls_snoc (v : string) (request : value) (n : nat) (tr : list event) :
  (polls v request n
     ++ EvSleep 10 :: EvCall (get_request_status v request) :: tr)%list
  = (polls v request (S n) ++ tr)%list.
Proof.
  induction n as [|n IH]; simpl; [reflexivity|].
  simpl in IH. now rewrite IH.
Qed.

Lemma queries_polls (v : string) (request : value) (n : nat)
    (tr : list event) :
  queries (polls v request n ++ tr) = (n + queries tr)%nat.
Proof. induction n as [|n IH]; simpl; auto. Qed.

(** With every query answered "In Progress", a run with
    [retry_count = n + 1] makes [n] queries, each followed by a sleep, and
    ends as [timeout_outcome] says.  Besides the events it only writes the
    key "state" of the requests. *)
Lemma wait_for_request_in_progress (request : value) :
  always_in_progress E ->
  forall (n fuel : nat) (w : world),
    (S n <= fuel)%nat ->
    exists w',
      wait_for_request E fuel request (Z.of_nat (S n)) w
      = (timeout_outcome request n, w') /\
      trace w' = (polls (url w) request n ++ trace w)%list /\
      url w' = url w /\
      ticks w' = ticks w /\
      (forall k, k <> "state" ->
         lookup k (requests w') = lookup k (requests w)).
Proof.
  intros Hbusy. induction n as [|n IH]; intros fuel w Hfuel.
  - destruct fuel as [|fuel]; [lia|].
    exists w. simpl. unfold bind, lift, ret, timeout_outcome.
    destruct (getattr request "requestId"); auto.
  - destruct fuel as [|fuel]; [lia|].
    cbn [wait_for_request].
    replace (Z.of_nat (S (S n)) - 1) with (Z.of_nat (S n)) by lia.
    replace (Z.of_nat (S n) =? 0) with false by (symmetry; apply Z.eqb_neq; lia).
    unfold try_except, bind at 1, vin, gets.
    unfold bind at 1, await_call. rewrite Hbusy. cbn [result_of_reply].
    unfold bind at 1, set_request, modify.
    cbn [eq_str String.eqb Ascii.eqb Bool.eqb].
    unfold bind at 1, sleep, modify.
    match goal with
    | |- context [wait_for_request E fuel request (Z.of_nat (S n)) ?w1] =>
        destruct (IH fuel w1 ltac:(lia)) as (w' & Hrun & Htr & Hurl & Htk & Hreq)
    end.
    rewrite Hrun. cbn [url trace with_trace with_requests requests ticks] in *.
    exists w'. split.
    + unfold timeout_outcome.
      destruct (getattr request "requestId"); destruct n; reflexivity.
    + split; [rewrite Htr; apply polls_snoc|].
      split; [exact Hurl|]. split; [exact Htk|].
      intros k Hk. rewrite (Hreq k Hk).
      apply lookup_setitem_ne; congruence.
Qed.

Lemma polling_frame_refl (w : world) : polling_frame w w.
Proof. unfold polling_frame; repeat split; auto. now exists []. Qed.

Lemma polling_frame_trans (w1 w2 w3 : world) :
  polling_frame w1 w2 -> polling_frame w2 w3 -> polling_frame w1 w3.
Proof.
  unfold polling_frame.
  intros ([e1 H1] & A1 & B1 & C1 & D1 & T1 & R1)
         ([e2 H2] & A2 & B2 & C2 & D2 & T2 & R2).
  repeat split; try congruence.
  - exists (e2 ++ e1)%list. rewrite H2, H1. now rewrite app_assoc.
  - intros k Hk. rewrite (R2 k Hk). auto.
Qed.

Lemma polling_frame_query (w : world) (c : call) (status : value) :
  polling_frame w
    (with_requests (setitem "state" status (requests w))
       (with_trace (EvCall c :: trace w) w)).
Proof.
  unfold polling_frame; simpl; repeat split; auto.
  - now exists [EvCall c].
  - intros k Hk. apply lookup_setitem_ne; congruence.
Qed.

Lemma polling_frame_event (w : world) (ev : event) :
  polling_frame w (with_trace (ev :: trace w) w).
Proof.
  unfold polling_frame; simpl; repeat split; auto. now exists [ev].
Qed.

Lemma wait_for_request_frame (request : value) :
  forall (fuel : nat) (retry_count : Z) (w w' : world) (r : result value),
    wait_for_request E fuel request retry_count w = (r, w') ->
    polling_frame w w'.
Proof.
  induction fuel as [|fuel IH]; intros rc w w' r Hrun.
  - inversion Hrun; subst. apply polling_frame_refl.
  - cbn [wait_for_request] in Hrun.
    destruct (rc - 1 =? 0).
    + unfold bind, lift, ret in Hrun.
      destruct (getattr request "requestId"); inversion Hrun; subst;
        apply polling_frame_refl.
    + unfold try_except, bind at 1, vin, gets in Hrun.
      unfold bind at 1, await_call in Hrun.
      destruct (backend E (trace w) (get_request_status (url w) request))
        as [status|e]; cbn [result_of_reply] in Hrun.
      * unfold bind at 1, set_request, modify in Hrun.
        destruct (eq_str status "In Progress").
        -- unfold bind at 1, sleep, modify in Hrun.
           match type of Hrun with
           | context [wait_for_request E fuel request (rc - 1) ?w1] =>
               destruct (wait_for_request E fuel request (rc - 1) w1)
                 as [r1 w1'] eqn:Hrec;
               apply IH in Hrec
           end.
           eapply polling_frame_trans;
             [apply polling_frame_query|].
           eapply polling_frame_trans;
             [apply polling_frame_event|].
           destruct r1; inversion Hrun; subst; exact Hrec.
        -- inversion Hrun; subst. apply polling_frame_query.
      * inversion Hrun; subst. apply polling_frame_event.
Qed.

(** With enough fuel for its [retry_count] the loop does not diverge, and
    from a [retry_count] of two or more it returns a status: whatever is
    raised below the first call is caught there. *)
Lemma wait_for_request_returns (request : value) :
  forall (n fuel : nat) (w : world),
    (S (S n) <= fuel)%nat ->
    exists status w',
      wait_for_request E fuel request (Z.of_nat (S (S n))) w
      = (Ret status, w').
Proof.
  assert (Hnd : forall (n fuel : nat) (w : world),
             (S n <= fuel)%nat ->
             fst (wait_for_request E fuel request (Z.of_nat (S n)) w)
             <> Diverge).
  { induction n as [|n IH]; intros fuel w Hfuel;
      (destruct fuel as [|fuel]; [lia|]); cbn [wait_for_request].
    - simpl. unfold bind, lift, ret.
      pose proof (getattr_never_diverges request "requestId").
      destruct (getattr request "requestId"); simpl; congruence.
    - replace (Z.of_nat (S (S n)) - 1) with (Z.of_nat (S n)) by lia.
      replace (Z.of_nat (S n) =? 0) with false
        by (symmetry; apply Z.eqb_neq; lia).
      unfold try_except, bind at 1, vin, gets.
      unfold bind at 1, await_call.
      destruct (backend E (trace w) (get_request_status (url w) request))
        as [status|e]; cbn [result_of_reply]; [|simpl; discriminate].
      unfold bind at 1, set_request, modify.
      destruct (eq_str status "In Progress"); [|simpl; discriminate].
      unfold bind at 1, sleep, modify.
      match goal with
      | |- context [wait_for_request E fuel request (Z.of_nat (S n)) ?w1] =>
          specialize (IH fuel w1 ltac:(lia));
          destruct (wait_for_request E fuel request (Z.of_nat (S n)) w1)
            as [[s| |] w1']
      end; simpl in *; try discriminate; congruence. }
  intros n fuel w Hfuel.
  destruct fuel as [|fuel]; [lia|]. cbn [wait_for_request].
  replace (Z.of_nat (S (S n)) - 1) with (Z.of_nat (S n)) by lia.
  replace (Z.of_nat (S n) =? 0) with false
    by (symmetry; apply Z.eqb_neq; lia).
  unfold try_except, bind at 1, vin, gets.
  unfold bind at 1, await_call.
  destruct (backend E (trace w) (get_request_status (url w) request))
    as [status|e]; cbn [result_of_reply]; [|unfold ret; simpl; eauto].
  unfold bind at 1, set_request, modify.
  destruct (eq_str status "In Progress"); [|unfold ret; simpl; eauto].
  unfold bind at 1, sleep, modify.
  match goal with
  | |- context [wait_for_request E fuel request (Z.of_nat (S n)) ?w1] =>
      specialize (Hnd n fuel w1 ltac:(lia));
      destruct (wait_for_request E fuel request (Z.of_nat (S n)) w1)
        as [[s| |] w1']
  end; unfold ret; simpl in *; eauto; congruence.
Qed.

(** A run that does not start at the end of its budget asks the backend at
    least once; so does the call of [_handle_response], which leaves
    [retry_count] at 18. *)
Lemma wait_for_request_queries (request : value) (fuel : nat)
    (retry_count : Z) (w : world) :
  retry_count <> 1 ->
  exists evs,
    trace (snd (wait_for_request E (S fuel) request retry_count w))
    = (evs ++ EvCall (get_request_status (url w) request) :: trace w)%list.
Proof.
  intros Hrc. cbn [wait_for_request].
  replace (retry_count - 1 =? 0) with false
    by (symmetry; apply Z.eqb_neq; lia).
  unfold try_except, bind at 1, vin, gets.
  unfold bind at 1, await_call.
  destruct (backend E (trace w) (get_request_status (url w) request))
    as [status|e]; cbn [result_of_reply]; [|now exists []].
  unfold bind at 1, set_request, modify.
  destruct (eq_str status "In Progress"); [|now exists []].
  unfold bind at 1, sleep, modify.
  match goal with
  | |- context [wait_for_request E fuel request ?rc ?w1] =>
      destruct (wait_for_request E fuel request rc w1) as [r1 w1'] eqn:Hrec;
      apply wait_for_request_frame in Hrec;
      destruct Hrec as ([evs Hevs] & _)
  end.
  exists (evs ++ [EvSleep 10])%list.
  destruct r1; simpl in *; rewrite Hevs, <- app_assoc; reflexivity.
Qed.

(** C1, on the code: against a backend that answers "In Progress" to every
    query, [wait_for_request] with its default [retry_count] of 18 returns
    after 17 status queries, each followed by a sleep of ten seconds.  It
    returns "Timeout" only for a request object that has a [requestId]
    attribute; for any other identifier, such as the integer or string
    that [_handle_response] passes, the log line of the timeout raises and
    the result is "Exception". *)
Theorem wait_for_request_always_in_progress
    (request : value) (w : world) (fuel : nat) :
  always_in_progress E ->
  (18 <= fuel)%nat ->
  exists w',
    wait_for_request E fuel request 18 w
    = (timeout_outcome request 17, w') /\
    trace w' = (polls (url w) request 17 ++ trace w)%list /\
    queries (trace w') = (17 + queries (trace w))%nat /\
    (timeout_outcome request 17 = Ret (VStr "Timeout") <->
       exists x, getattr request "requestId" = Ret x) /\
    ((forall attrs, request <> VObj attrs) ->
       timeout_outcome request 17 = Ret (VStr "Exception")).
Proof.
  intros Hbusy Hfuel.
  destruct (wait_for_request_in_progress request Hbusy 17 fuel w Hfuel)
    as (w' & Hrun & Htr & _).
  exists w'. change (Z.of_nat 18) with 18 in Hrun.
  split; [exact Hrun|]. split; [exact Htr|].
  split; [rewrite Htr; apply queries_polls|].
  unfold timeout_outcome. split.
  - destruct (getattr request "requestId") as [x|e|]; split; intros H;
      eauto; try discriminate; destruct H; discriminate.
  - intros Hobj. destruct request; simpl; try reflexivity.
    exfalso; eapply Hobj; reflexivity.
Qed.

End Polling.

Lemma wait_for_request_always_in_progress_witness :
  exists w',
    wait_for_request (env_of busy_backend) 18 (VInt 7) 18
      (init (env_of busy_backend) "WVWZZZ")
    = (Ret (VStr "Exception"), w') /\
    queries (trace w') = 17%nat.
Proof.
  destruct (wait_for_request_always_in_progress (env_of busy_backend)
              (VInt 7) (init (env_of busy_backend) "WVWZZZ") 18)
    as (w' & Hrun & _ & Hq & _ & _).
  - intros history v request; reflexivity.
  - apply le_n.
  - exists w'. split; [exact Hrun | exact Hq].
Defined.

(** ** Handling the response of a submission *)

Section Handling.

Variable E : env.

Lemma record_submission_run (d : dict) (topic : string) (w : world) :
  record_submission E (VDict d) topic w = (Ret tt, submitted E d topic w).
Proof.
  unfold record_submission, submitted, bind, lift, get, now, set_request,
    modify, ret.
  destruct (negb (eq_int (dget d "rate_limit_remaining" (VInt (-1))) (-1)));
    reflexivity.
Qed.

(** An absent or falsy response: the topic is marked "Failed" and the
    caller gets an exception. *)
Lemma handle_response_falsy (response : value) (topic : string)
    (error_msg : option message) (w : world) :
  truthy response = false ->
  _handle_response E response topic error_msg w
  = (Raise (Exception (failure_message topic error_msg)),
     with_requests
       (setitem topic
          (VDict [("status", VStr "Failed");
                  ("timestamp", VTime (clock E (ticks w)))])
          (requests w))
       (with_ticks (S (ticks w)) w)).
Proof.
  intros Hf. unfold _handle_response. rewrite Hf. reflexivity.
Qed.

(** A truthy response that is not a mapping has no [get]. *)
Lemma handle_response_not_a_mapping (response : value) (topic : string)
    (error_msg : option message) (w : world) :
  truthy response = true ->
  (forall d, response <> VDict d) ->
  _handle_response E response topic error_msg w = (Raise AttributeError, w).
Proof.
  intros Ht Hd. unfold _handle_response. rewrite Ht. simpl.
  destruct response; try reflexivity.
  exfalso; eapply Hd; reflexivity.
Qed.

(** A non-empty mapping: the request is recorded, polled unless the
    response says "Throttled", and the outcome is written to the topic;
    the caller gets True whatever the status is. *)
Lemma handle_response_accepted (d : dict) (topic : string)
    (error_msg : option message) (w : world) :
  d <> [] ->
  exists status w2,
    (if eq_str (dget d "state" VNone) "Throttled"
     then status = VStr "Throttled" /\ w2 = submitted E d topic w
     else wait_for_request E 18 (dget d "id" (VInt 0)) 18
            (submitted E d topic w) = (Ret status, w2)) /\
    _handle_response E (VDict d) topic error_msg w
    = (Ret true, settled E status topic w2).
Proof.
  intros Hd. unfold _handle_response.
  replace (truthy (VDict d)) with true by (destruct d; [contradiction|reflexivity]).
  cbn [negb]. unfold bind at 1. rewrite record_submission_run.
  unfold bind at 1, lift, get.
  destruct (eq_str (dget d "state" VNone) "Throttled").
  - exists (VStr "Throttled"), (submitted E d topic w). split; [auto|reflexivity].
  - destruct (wait_for_request_returns E (dget d "id" (VInt 0)) 16 18
                (submitted E d topic w) (le_n 18)) as (status & w2 & Hrun).
    change (Z.of_nat 18) with 18 in Hrun.
    exists status, w2. split; [exact Hrun|].
    unfold bind at 1. unfold bind at 1. rewrite Hrun. reflexivity.
Qed.

(** C4: a response that is a mapping whose state is "Throttled" is handled
    without any status query and without any sleep, and the record of the
    topic ends with the status "Throttled". *)
Theorem throttled_response_is_not_polled
    (d : dict) (topic : string) (error_msg : option message) (w : world) :
  lookup "state" d = Some (VStr "Throttled") ->
  exists w',
    _handle_response E (VDict d) topic error_msg w = (Ret true, w') /\
    trace w' = trace w /\
    lookup topic (requests w')
    = Some (VDict [("status", VStr "Throttled");
                   ("timestamp", VTime (clock E (S (ticks w))))]).
Proof.
  intros Hstate.
  assert (Hd : d <> []) by (intros ->; discriminate).
  destruct (handle_response_accepted d topic error_msg w Hd)
    as (status & w2 & Hpoll & Hrun).
  rewrite (dget_lookup _ _ _ _ Hstate) in Hpoll. simpl in Hpoll.
  destruct Hpoll as [-> ->].
  eexists; split; [exact Hrun|]. split; [reflexivity|].
  unfold settled; simpl. apply lookup_setitem_eq.
Qed.

End Handling.

Lemma throttled_response_is_not_polled_witness :
  exists w',
    _handle_response (env_of busy_backend)
      (VDict [("id", VNone); ("state", VStr "Throttled")]) "climatisation"
      None (init (env_of busy_backend) "WVWZZZ")
    = (Ret true, w') /\
    trace w' = [] /\
    lookup "climatisation" (requests w')
    = Some (VDict [("status", VStr "Throttled");
                   ("timestamp", VTime (minutes 7))]).
Proof.
  apply (throttled_response_is_not_polled (env_of busy_backend)
           [("id", VNone); ("state", VStr "Throttled")] "climatisation" None
           (init (env_of busy_backend) "WVWZZZ")).
  reflexivity.
Defined.

(** ** Locking *)

Section Locking.

Variable E : env.


(** The admission check adds no event and only touches the record of its
    topic, from which it can only remove the id; when it answers False the
    record holds no pending id any more. *)
Lemma in_progress_frame (topic : string) (unknown_offset : Z)
    (w w1 : world) (r : result bool) :
  _in_progress E topic unknown_offset w = (r, w1) ->
  trace w1 = trace w /\ url w1 = url w /\ services w1 = services w /\
  states w1 = states w /\
  (forall k, k <> topic -> lookup k (requests w1) = lookup k (requests w)) /\
  (forall field default,
     field <> "id" ->
     get (dget (requests w1) topic (VDict [])) field default
     = get (dget (requests w) topic (VDict [])) field default) /\
  (r = Ret false ->
     exists id,
       get (dget (requests w1) topic (VDict [])) "id" (VBool false) = Ret id
       /\ truthy id = false) /\
  r <> Diverge.
Proof.
  unfold _in_progress, request_record, bind, gets, lift, now, ret,
    set_request, modify, raise.
  cbn [requests with_ticks ticks].
  unfold dget.
  destruct (lookup topic (requests w)) as [[| | | | | | |rec| |]|] eqn:Htopic;
    cbn [get truthy negb dget lookup];
    try (intros Hrun; inversion Hrun; subst; rewrite ?Htopic;
         repeat split; eauto; discriminate);
    try (intros Hrun; inversion Hrun; subst; rewrite ?Htopic;
         repeat split; auto; try discriminate;
         intros _; exists (VBool false); now split).
  unfold dget.
  destruct (lookup "id" rec) as [id|] eqn:Hid; cbn [truthy];
    [|intros Hrun; inversion Hrun; subst; rewrite ?Htopic; cbn [get];
      unfold dget; rewrite ?Hid; repeat split; eauto; discriminate].
  destruct (truthy id) eqn:Htruthy;
    [|intros Hrun; inversion Hrun; subst; rewrite ?Htopic; cbn [get];
      unfold dget; rewrite ?Hid; repeat split; eauto; discriminate].
  rewrite Htopic. cbn [get].
  match goal with
  | |- context [add_timedelta ?v ?d] =>
      pose proof (add_timedelta_never_diverges v d) as Hadd
  end.
  destruct (add_timedelta _ (minutes 3)) as [deadline| |];
    [| |contradiction];
    try (intros Hrun; inversion Hrun; subst; cbn; rewrite ?Htopic;
         repeat split; auto; discriminate).
  match goal with
  | |- context [time_lt ?a ?b] =>
      pose proof (time_lt_never_diverges a b) as Hlt
  end.
  destruct (time_lt deadline _) as [[|]| |]; [| | |contradiction];
    try (intros Hrun; inversion Hrun; subst; cbn; rewrite ?Htopic;
         repeat split; auto; discriminate).
  cbn [requests with_ticks ticks]. rewrite Htopic, (mem_lookup _ _ _ Hid).
  intros Hrun; inversion Hrun; subst; cbn.
  repeat split; auto; try discriminate.
  - intros k Hk. apply lookup_setitem_ne; congruence.
  - intros field default Hfield.
    rewrite lookup_setitem_eq. cbn. unfold dget.
    rewrite lookup_remove_ne by congruence. reflexivity.
  - intros _. exists (VBool false).
    rewrite lookup_setitem_eq. cbn. unfold dget.
    rewrite lookup_remove_eq. auto.
Qed.





End Locking.

(** ** Properties that only read the vehicle *)

Section Readers.

Variable E : env.

Lemma reader_ret {A} (a : A) : reader (ret a).
Proof. intros w; split; [reflexivity | discriminate]. Qed.

Lemma reader_raise {A} (e : exn) : reader (@raise A e).
Proof. intros w; split; [reflexivity | discriminate]. Qed.

Lemma reader_lift {A} (r : result A) : r <> Diverge -> reader (lift r).
Proof. intros Hr w; split; [reflexivity | exact Hr]. Qed.

Lemma reader_gets {A} (f : world -> A) : reader (gets f).
Proof. intros w; split; [reflexivity | discriminate]. Qed.

Lemma reader_bind {A B} (m : M A) (k : A -> M B) :
  reader m -> (forall a, reader (k a)) -> reader (bind m k).
Proof.
  intros Hm Hk w. unfold bind. destruct (Hm w) as [Hw Hd].
  destruct (m w) as [[a|e|] w0]; simpl in *; subst.
  - apply Hk.
  - split; [reflexivity | discriminate].
  - contradiction.
Qed.

Lemma reader_run {A} (m : M A) (w : world) :
  reader m -> exists r, m w = (r, w) /\ r <> Diverge.
Proof.
  intros Hm. destruct (Hm w) as [Hw Hd].
  destruct (m w) as [r w0]; simpl in *; subst. eauto.
Qed.

Lemma is_valid_path_never_diverges (d : value) (p : path) :
  is_valid_path d p <> Diverge.
Proof.
  unfold is_valid_path. pose proof (find_path_never_diverges d p).
  destruct (find_path d p) as [v|e|]; try discriminate; [|contradiction].
  destruct (is_KeyError e); discriminate.
Qed.

Lemma get_never_diverges (v : value) (k : string) (default : value) :
  get v k default <> Diverge.
Proof. destruct v; discriminate. Qed.

Lemma subscript_never_diverges (v : value) (k : string) :
  subscript v k <> Diverge.
Proof.
  destruct v; simpl; try discriminate. destruct (lookup k d); discriminate.
Qed.

Lemma iterate_never_diverges (v : value) : iterate v <> Diverge.
Proof. destruct v; discriminate. Qed.

Lemma float_of_never_diverges (v : value) : float_of E v <> Diverge.
Proof.
  destruct v; simpl; try discriminate.
  - unfold float_of_int. destruct (_ <? _); discriminate.
  - destruct (parse_float E s); discriminate.
Qed.

Lemma window_heating_parameter_never_diverges (l : list value) :
  window_heating_parameter l <> Diverge.
Proof.
  induction l as [|p l IH]; simpl; [discriminate|].
  pose proof (subscript_never_diverges p "key").
  destruct (subscript p "key") as [k|e|]; simpl; try discriminate;
    [|contradiction].
  destruct (eq_str k "supportsStartWindowHeating"); [|exact IH].
  pose proof (subscript_never_diverges p "value").
  destruct (subscript p "value") as [v|e|]; simpl; try discriminate;
    [|contradiction].
  destruct (eq_str v "true"); [discriminate | exact IH].
Qed.

Lemma reader_has_path (suffix service : string) :
  reader (has_path suffix service).
Proof.
  apply reader_bind; [apply reader_gets|].
  intros a. apply reader_lift, is_valid_path_never_diverges.
Qed.

Lemma reader_read_path (suffix service : string) :
  reader (read_path suffix service).
Proof.
  apply reader_bind; [apply reader_gets|].
  intros a. apply reader_lift, find_path_never_diverges.
Qed.

Lemma reader_and_then (a b : M bool) :
  reader a -> reader b -> reader (and_then a b).
Proof.
  intros Ha Hb. apply reader_bind; [exact Ha|].
  intros [|]; [exact Hb | apply reader_ret].
Qed.

Lemma reader_or_else (a b : M bool) :
  reader a -> reader b -> reader (or_else a b).
Proof.
  intros Ha Hb. apply reader_bind; [exact Ha|].
  intros [|]; [apply reader_ret | exact Hb].
Qed.

Lemma reader_is_charging_supported : reader (is_charging_supported E).
Proof. apply reader_has_path. Qed.

Lemma reader_is_charge_max_ac_setting_supported :
  reader (is_charge_max_ac_setting_supported E).
Proof.
  apply reader_bind; [apply reader_has_path|].
  intros [|]; [|apply reader_ret].
  apply reader_bind; [apply reader_read_path | intros; apply reader_ret].
Qed.

Lemma reader_is_electric_climatisation_supported :
  reader (is_electric_climatisation_supported E).
Proof. repeat apply reader_and_then; apply reader_has_path. Qed.

Lemma reader_climatisation_target_temperature :
  reader (climatisation_target_temperature E).
Proof.
  apply reader_bind; [apply reader_read_path|].
  intros v. apply reader_bind; [|intros; apply reader_ret].
  apply reader_lift, float_of_never_diverges.
Qed.

Lemma reader_is_window_heater_supported :
  reader (is_window_heater_supported E).
Proof.
  apply reader_bind; [apply reader_gets|]. intros svcs.
  apply reader_bind; [apply reader_lift, get_never_diverges|]. intros flag.
  destruct (eq_str flag "true"); [apply reader_ret|].
  apply reader_bind; [apply reader_lift, get_never_diverges|].
  intros parameters. destruct (truthy parameters); [|apply reader_ret].
  apply reader_bind; [apply reader_lift, iterate_never_diverges|].
  intros items. apply reader_lift, window_heating_parameter_never_diverges.
Qed.

Lemma reader_service_active (service : string) :
  reader (service_active service).
Proof.
  apply reader_bind; [apply reader_gets|].
  intros svcs. apply reader_lift, get_never_diverges.
Qed.

End Readers.

(** ** Control actions *)

Section Actions.

Variable E : env.

Lemma handle_response_trace (response : value) (topic : string)
    (error_msg : option message) (w : world) :
  exists evs,
    trace (snd (_handle_response E response topic error_msg w))
    = (evs ++ trace w)%list.
Proof.
  destruct (truthy response) eqn:Ht.
  - destruct response as [| | | | | | |d| |];
      try (rewrite handle_response_not_a_mapping;
           [now exists [] | exact Ht | intros d; discriminate]).
    assert (Hd : d <> []) by (intros ->; discriminate).
    destruct (handle_response_accepted E d topic error_msg w Hd)
      as (status & w2 & Hpoll & ->).
    assert (Hframe : polling_frame (submitted E d topic w) w2).
    { destruct (eq_str (dget d "state" VNone) "Throttled").
      - destruct Hpoll as [_ ->]. apply polling_frame_refl.
      - eapply wait_for_request_frame; exact Hpoll. }
    destruct Hframe as ([evs Hevs] & _). exists evs. exact Hevs.
  - rewrite handle_response_falsy by exact Ht. now exists [].
Qed.

(** What a submission comes to: the call is the first new event; a
    response that is a non-empty mapping gives True, with the status of
    the polling (or "Throttled") written to the topic; a failing call and
    any other response give an exception. *)
Lemma submit_outcome (c : call) (topic : string)
    (error_msg : option message) (w : world) :
  (exists evs,
     trace (snd (submit E c topic error_msg w))
     = (evs ++ EvCall c :: trace w)%list) /\
  match backend E (trace w) c with
  | Answer (VDict (kv :: d)) =>
      fst (submit E c topic error_msg w) = Ret true /\
      exists status t,
        lookup topic (requests (snd (submit E c topic error_msg w)))
        = Some (VDict [("status", status); ("timestamp", VTime t)])
  | _ => exists e, fst (submit E c topic error_msg w) = Raise e
  end.
Proof.
  unfold submit, bind, await_call.
  destruct (backend E (trace w) c) as [response|e]; cbn [result_of_reply].
  2:{ split; [exists []; reflexivity | exists e; reflexivity]. }
  split.
  { destruct (handle_response_trace response topic error_msg
                (with_trace (EvCall c :: trace w) w)) as [evs Hevs].
    exists evs. exact Hevs. }
  destruct (truthy response) eqn:Ht.
  - destruct response as [| | | | | | |d| |];
      try (rewrite handle_response_not_a_mapping;
           [exists AttributeError; reflexivity | exact Ht
           | intros d; discriminate]).
    destruct d as [|kv d]; [discriminate|].
    destruct (handle_response_accepted E (kv :: d) topic error_msg
                (with_trace (EvCall c :: trace w) w))
      as (status & w2 & _ & ->); [discriminate|].
    split; [reflexivity|].
    exists status, (clock E (ticks w2)).
    unfold settled; cbn. apply lookup_setitem_eq.
  - rewrite handle_response_falsy by exact Ht.
    destruct response as [| | | | | | |[|kv d]| |]; try discriminate;
      eexists; reflexivity.
Qed.

Ltac solve_reader :=
  repeat (intros; first
    [ apply reader_ret | apply reader_raise | apply reader_gets
    | apply reader_has_path | apply reader_read_path
    | apply reader_is_charging_supported
    | apply reader_is_charge_max_ac_setting_supported
    | apply reader_is_electric_climatisation_supported
    | apply reader_is_window_heater_supported
    | apply reader_climatisation_target_temperature
    | apply reader_service_active
    | apply reader_lift;
      first [ apply float_of_never_diverges | apply get_never_diverges ]
    | apply reader_and_then | apply reader_or_else | apply reader_bind
    | match goal with
      | |- reader (if ?b then _ else _) => destruct b
      | |- reader (match ?v with _ => _ end) => destruct v
      end ]).










(** *** The target temperature *)

Lemma has_path_run (suffix service : string) (w : world) :
  has_path suffix service w
  = (is_valid_path (VDict (states w)) (PathStr (service ++ suffix)), w).
Proof. reflexivity. Qed.

Lemma read_path_run (suffix service : string) (w : world) :
  read_path suffix service w
  = (find_path (VDict (states w)) (PathStr (service ++ suffix)), w).
Proof. reflexivity. Qed.

Lemma and_then_true (a b : M bool) (w : world) :
  reader a -> reader b ->
  fst (and_then a b w) = Ret true ->
  fst (a w) = Ret true /\ a w = (Ret true, w) /\ b w = (Ret true, w).
Proof.
  intros Ha Hb. unfold and_then, bind.
  destruct (reader_run a w Ha) as (ra & Hra & _). rewrite Hra.
  destruct ra as [[|]| |]; try discriminate.
  destruct (reader_run b w Hb) as (rb & Hrb & _). rewrite Hrb.
  cbn. intros ->. auto.
Qed.

(** When the climatisation is supported, the setting that
    [set_climatisation_temp] copies into its request can be read. *)
Lemma supported_climatisation_reads (w : world) :
  fst (is_electric_climatisation_supported E w) = Ret true \/
  fst (is_auxiliary_climatisation_supported w) = Ret true ->
  or_else (is_electric_climatisation_supported E)
    is_auxiliary_climatisation_supported w = (Ret true, w) /\
  exists without_power,
    climatisation_without_external_power E w = (Ret without_power, w).
Proof.
  intros [Hsup|Haux]; [|discriminate].
  unfold is_electric_climatisation_supported in Hsup.
  apply and_then_true in Hsup; [|solve_reader|solve_reader].
  destruct Hsup as (_ & Hstatus & Hrest).
  assert (Hsettings :
            fst (and_then (is_climatisation_target_temperature_supported E)
                   (is_climatisation_without_external_power_supported E) w)
            = Ret true) by (rewrite Hrest; reflexivity).
  apply and_then_true in Hsettings; [|solve_reader|solve_reader].
  destruct Hsettings as (_ & Htarget & Hpower).
  split.
  - unfold or_else, bind, is_electric_climatisation_supported.
    unfold and_then at 1, bind. rewrite Hstatus, Hrest. reflexivity.
  - unfold is_climatisation_without_external_power_supported in Hpower.
    rewrite has_path_run in Hpower. inversion Hpower as [Hvalid].
    apply is_valid_path_true_inv in Hvalid.
    destruct Hvalid as [v Hv]. exists v.
    unfold climatisation_without_external_power.
    rewrite read_path_run, Hv. reflexivity.
Qed.

Lemma set_climatisation_temp_run (t : number) (x : Q) (w : world) :
  fst (is_electric_climatisation_supported E w) = Ret true \/
  fst (is_auxiliary_climatisation_supported w) = Ret true ->
  float_of E (value_of_number t) = Ret x ->
  exists without_power,
    set_climatisation_temp E t w
    = if temperature_in_range x then
        submit E (setClimaterSettings (url w)
                  (temperature_request x without_power))
          "climatisation" (Some (MsgText "Failed to set temperature"))
          (with_requests
             (setitem "latest" (VStr "Climatisation") (requests w)) w)
      else
        (Raise (Exception (MsgFmt "Set climatisation target temp to "
                             (value_of_number t) " is not supported.")), w).
Proof.
  intros Hsup Hx.
  destruct (supported_climatisation_reads w Hsup) as [Hor [wp Hwp]].
  exists wp. unfold set_climatisation_temp.
  unfold bind at 1. rewrite Hor. cbv beta iota.
  unfold bind at 1, lift at 1. rewrite Hx. cbv beta iota.
  unfold bind at 1.
  destruct (temperature_in_range x).
  - unfold bind at 1. unfold bind at 1. unfold lift at 1. cbv beta iota.
    rewrite Hwp. reflexivity.
  - reflexivity.
Qed.

Lemma temperature_in_range_iff (x : Q) :
  temperature_in_range x = true <-> (31 # 2 <= x)%Q /\ (x <= 30)%Q.
Proof.
  unfold temperature_in_range.
  rewrite andb_true_iff, !Qle_bool_iff. reflexivity.
Qed.

(** C7: on a vehicle whose electric or auxiliary climatisation is
    supported, [set_climatisation_temp] raises the exception of an
    unsupported temperature for 31 and for 15 and leaves the vehicle
    untouched, so that nothing is submitted; for 20 its first call is the
    submission of the target temperature 20.0; and in general a
    temperature is submitted exactly when its float lies between 15.5 and
    30, both included. *)
Theorem set_climatisation_temp_range (w : world) :
  fst (is_electric_climatisation_supported E w) = Ret true \/
  fst (is_auxiliary_climatisation_supported w) = Ret true ->
  set_climatisation_temp E (NInt 31) w
  = (Raise (Exception (MsgFmt "Set climatisation target temp to " (VInt 31)
                         " is not supported.")), w) /\
  set_climatisation_temp E (NInt 15) w
  = (Raise (Exception (MsgFmt "Set climatisation target temp to " (VInt 15)
                         " is not supported.")), w) /\
  (exists without_power evs,
     trace (snd (set_climatisation_temp E (NInt 20) w))
     = (evs ++ EvCall (setClimaterSettings (url w)
                         (temperature_request 20 without_power))
            :: trace w)%list) /\
  (forall (t : number) (x : Q),
     float_of E (value_of_number t) = Ret x ->
     ((31 # 2 <= x)%Q /\ (x <= 30)%Q ->
      exists without_power evs,
        trace (snd (set_climatisation_temp E t w))
        = (evs ++ EvCall (setClimaterSettings (url w)
                            (temperature_request x without_power))
               :: trace w)%list) /\
     (~ ((31 # 2 <= x)%Q /\ (x <= 30)%Q) ->
      set_climatisation_temp E t w
      = (Raise (Exception (MsgFmt "Set climatisation target temp to "
                             (value_of_number t) " is not supported.")),
         w))).
Proof.
  intros Hsup.
  assert (Hgeneral :
            forall (t : number) (x : Q),
              float_of E (value_of_number t) = Ret x ->
              ((31 # 2 <= x)%Q /\ (x <= 30)%Q ->
               exists without_power evs,
                 trace (snd (set_climatisation_temp E t w))
                 = (evs ++ EvCall (setClimaterSettings (url w)
                                     (temperature_request x without_power))
                        :: trace w)%list) /\
              (~ ((31 # 2 <= x)%Q /\ (x <= 30)%Q) ->
               set_climatisation_temp E t w
               = (Raise (Exception
                           (MsgFmt "Set climatisation target temp to "
                              (value_of_number t) " is not supported.")),
                  w))).
  { intros t x Hx.
    destruct (set_climatisation_temp_run t x w Hsup Hx) as [wp Hrun].
    rewrite Hrun. split; intros Hrange.
    - apply temperature_in_range_iff in Hrange. rewrite Hrange.
      destruct (submit_outcome
                  (setClimaterSettings (url w) (temperature_request x wp))
                  "climatisation" (Some (MsgText "Failed to set temperature"))
                  (with_requests
                     (setitem "latest" (VStr "Climatisation") (requests w)) w))
        as [[evs Hevs] _].
      exists wp, evs. exact Hevs.
    - destruct (temperature_in_range x) eqn:Hin; [|reflexivity].
      apply temperature_in_range_iff in Hin. contradiction. }
  assert (H31 : float_of E (VInt 31) = Ret 31%Q) by (vm_compute; reflexivity).
  assert (H15 : float_of E (VInt 15) = Ret 15%Q) by (vm_compute; reflexivity).
  assert (H20 : float_of E (VInt 20) = Ret 20%Q) by (vm_compute; reflexivity).
  split.
  { apply (Hgeneral (NInt 31) 31%Q H31).
    intros [_ Hle]. vm_compute in Hle. apply Hle; reflexivity. }
  split.
  { apply (Hgeneral (NInt 15) 15%Q H15).
    intros [Hle _]. vm_compute in Hle. apply Hle; reflexivity. }
  split; [|exact Hgeneral].
  apply (Hgeneral (NInt 20) 20%Q H20).
  split; vm_compute; discriminate.
Qed.

(** *** What a control action comes to *)




(** *** What a refresh comes to *)

Section Refreshing.

Variable strptime : string -> option Z.

Lemma goes_on_kept {A} (m : M A) :
  (forall w, fst (m w) <> Diverge /\ trace (snd (m w)) = trace w) ->
  goes_on m.
Proof.
  intros H w. destruct (H w) as [Hnd Htr].
  split; [exact Hnd | exists []; exact Htr].
Qed.

Lemma goes_on_reader {A} (m : M A) : reader m -> goes_on m.
Proof.
  intros Hm. apply goes_on_kept. intros w.
  destruct (Hm w) as [Hw Hnd]. rewrite Hw. auto.
Qed.


Lemma goes_on_raise {A} (e : exn) : goes_on (@raise A e).
Proof. apply goes_on_reader, reader_raise. Qed.

Lemma goes_on_modify (f : world -> world) :
  (forall w, trace (f w) = trace w) -> goes_on (modify f).
Proof.
  intros H. apply goes_on_kept. intros w. split; [discriminate | apply H].
Qed.

Lemma goes_on_set_request (k : string) (v : value) :
  goes_on (set_request k v).
Proof. apply goes_on_modify. reflexivity. Qed.

Lemma goes_on_now : goes_on (now E).
Proof. apply goes_on_kept. intros w. split; [discriminate | reflexivity]. Qed.




Lemma goes_on_try {A} (m : M A) (handler : exn -> M A) :
  goes_on m -> (forall e, goes_on (handler e)) ->
  goes_on (try_except m handler).
Proof.
  intros Hm Hh w. unfold try_except. destruct (Hm w) as [Hnd [evs Hevs]].
  destruct (m w) as [[a|e|] w1]; cbn [fst snd] in *.
  - split; [discriminate | exists evs; exact Hevs].
  - destruct (Hh e w1) as [Hnd1 [evs1 Hevs1]]. split; [exact Hnd1|].
    exists (evs1 ++ evs)%list. rewrite Hevs1, Hevs. apply app_assoc.
  - contradiction.
Qed.








End Refreshing.

(** *** The actions that make no call *)



End Actions.

(** ** The properties on concrete vehicles *)

(** On a vehicle that reports its climatisation, 31 and 15 degrees are
    refused and the vehicle is left as it was. *)
Lemma set_climatisation_temp_range_witness :
  set_climatisation_temp (env_of busy_backend) (NInt 31)
    (climate_vehicle (env_of busy_backend))
  = (Raise (Exception (MsgFmt "Set climatisation target temp to " (VInt 31)
                         " is not supported.")),
     climate_vehicle (env_of busy_backend)) /\
  set_climatisation_temp (env_of busy_backend) (NInt 15)
    (climate_vehicle (env_of busy_backend))
  = (Raise (Exception (MsgFmt "Set climatisation target temp to " (VInt 15)
                         " is not supported.")),
     climate_vehicle (env_of busy_backend)).
Proof.
  destruct (set_climatisation_temp_range (env_of busy_backend)
              (climate_vehicle (env_of busy_backend))
              (or_introl eq_refl)) as (H31 & H15 & _).
  split; [exact H31 | exact H15].
Defined.


(** C5 as stated fails: the backend accepts a lock request and then fails
    every status query; the polling ends in the status "Exception", which
    is written to the request record, and [set_lock] returns True. *)
(** The wake-up is accepted and the one fetch of the polling brings no
    time of connection: the polling ends in "Exception", and
    [set_refresh] returns True. *)
Example set_refresh_returns_true_after_failed_polling :
  exists w',
    set_refresh (env_of waking_backend) (fun _ => None)
      (init (env_of waking_backend) "WVWZZZ")
    = (Ret true, w') /\
    lookup "refresh" (requests w')
    = Some (VDict [("status", VStr "Exception");
                   ("timestamp", VTime (minutes 7))]).
Proof.
  eexists. split; vm_compute; reflexivity.
Qed.



(** ** Discovery *)

Section Discovery.

Variable E : env.

Lemma operation_ids_never_diverge (ops : dict) (l : list string) :
  operation_ids ops l <> Diverge.
Proof.
  induction l as [|k l IH]; [discriminate|]. cbn [operation_ids].
  pose proof (get_never_diverges (dget ops k VNone) "id" VNone) as Hget.
  destruct (get (dget ops k VNone) "id" VNone) as [id|e|];
    [|discriminate|contradiction].
  cbn [rbind].
  destruct (operation_ids ops l) as [rest|e|];
    [discriminate|discriminate|contradiction].
Qed.

(** What [service_data] returns: the name is the "id" of the entry. *)
Lemma service_data_name (service name : value) (data : dict) :
  service_data service = Ret (name, data) ->
  get service "id" VNone = Ret name.
Proof.
  unfold service_data.
  destruct service as [| | | | | | |d| |]; try discriminate.
  cbn [get rbind].
  destruct (truthy (dget d "isEnabled" (VBool false))); cbn [rbind];
    [|intros H; inversion H; reflexivity].
  destruct (truthy (dget d "operations" (VBool false))).
  - destruct (dget d "operations" (VBool false)) as [| | | | | | |ops| |];
      try discriminate.
    destruct (operation_ids ops (keys ops)) as [ids|e|]; try discriminate.
    cbn [rbind].
    destruct (truthy (dget d "parameters" (VBool false)));
      [|intros H; inversion H; reflexivity].
    destruct (iterate (dget d "parameters" (VBool false))); try discriminate.
    cbn [rbind]. intros H; inversion H; reflexivity.
  - cbn [rbind].
    destruct (truthy (dget d "parameters" (VBool false)));
      [|intros H; inversion H; reflexivity].
    destruct (iterate (dget d "parameters" (VBool false))); try discriminate.
    cbn [rbind]. intros H; inversion H; reflexivity.
Qed.

Lemma service_data_never_diverges (service : value) :
  service_data service <> Diverge.
Proof.
  unfold service_data.
  destruct service as [| | | | | | |d| |]; try discriminate.
  cbn [get rbind].
  destruct (truthy (dget d "isEnabled" (VBool false))); cbn [rbind];
    [|discriminate].
  destruct (truthy (dget d "operations" (VBool false))).
  - destruct (dget d "operations" (VBool false)) as [| | | | | | |ops| |];
      try discriminate.
    pose proof (operation_ids_never_diverge ops (keys ops)) as Hids.
    destruct (operation_ids ops (keys ops)) as [ids|e|];
      [|discriminate|contradiction].
    cbn [rbind].
    destruct (truthy (dget d "parameters" (VBool false))); [|discriminate].
    pose proof (iterate_never_diverges (dget d "parameters" (VBool false))).
    destruct (iterate (dget d "parameters" (VBool false)));
      [discriminate|discriminate|contradiction].
  - cbn [rbind].
    destruct (truthy (dget d "parameters" (VBool false))); [|discriminate].
    pose proof (iterate_never_diverges (dget d "parameters" (VBool false))).
    destruct (iterate (dget d "parameters" (VBool false)));
      [discriminate|discriminate|contradiction].
Qed.

(** A disabled entry yields the inactive flag and nothing else. *)
Lemma service_data_disabled (entry : dict) :
  truthy (dget entry "isEnabled" (VBool false)) = false ->
  service_data (VDict entry)
  = Ret (dget entry "id" VNone, [("active", VBool false)]).
Proof.
  intros Hoff. unfold service_data. cbn [get rbind]. rewrite Hoff.
  reflexivity.
Qed.

(** One turn of the loop never fails.  It either leaves the services as
    they are, or it merges the data of the entry into the record stored
    under the name that the entry gives as its "id". *)
Lemma discover_service_step (listing : dict) (k : string) (w : world) :
  exists w',
    discover_service listing k w = (Ret tt, w') /\
    trace w' = trace w /\ url w' = url w /\
    (services w' = services w \/
     exists v name data target,
       lookup k listing = Some v /\
       service_data v = Ret (VStr name, data) /\
       lookup name (services w) = Some (VDict target) /\
       services w'
       = setitem name (VDict (update target data)) (services w)).
Proof.
  unfold discover_service, try_except.
  unfold bind at 1, gets.
  destruct (mem k (services w)); [|exists w; auto].
  unfold bind at 1, lift at 1. unfold subscript.
  destruct (lookup k listing) as [v|] eqn:Hk; [|exists w; auto].
  unfold bind at 1, lift at 1.
  pose proof (service_data_never_diverges v) as Hnd.
  destruct (service_data v) as [[name data]|e|] eqn:Hdata;
    [|exists w; auto|contradiction].
  unfold bind at 1. unfold bind at 1, lift at 1. cbn [fst snd].
  destruct name as [| | | |name| | | | |];
    try (exists w; cbn; auto; fail).
  cbn [subscript_value subscript].
  destruct (lookup name (services w)) as [target|] eqn:Htarget;
    [|exists w; auto].
  unfold bind at 1, lift at 1.
  destruct target as [| | | | | | |target| |];
    try (exists w; cbn; auto; fail).
  cbn [update_method]. unfold modify.
  eexists. split; [reflexivity|]. cbn.
  split; [reflexivity|]. split; [reflexivity|].
  right. exists v, name, data, target. auto.
Qed.

(** The turn of a disabled entry that names the service it is listed
    under: the inactive flag is written into the record of the service. *)
Lemma discover_service_disabled (listing : dict) (svc : string)
    (entry rec : dict) (w : world) :
  lookup svc listing = Some (VDict entry) ->
  lookup "id" entry = Some (VStr svc) ->
  truthy (dget entry "isEnabled" (VBool false)) = false ->
  lookup svc (services w) = Some (VDict rec) ->
  discover_service listing svc w
  = (Ret tt,
     with_services
       (setitem svc (VDict (setitem "active" (VBool false) rec))
          (services w)) w).
Proof.
  intros Hentry Hid Hoff Hrec.
  unfold discover_service, try_except.
  unfold bind at 1, gets. rewrite (mem_lookup _ _ _ Hrec).
  unfold bind at 1, lift at 1. unfold subscript. rewrite Hentry.
  unfold bind at 1, lift at 1.
  rewrite (service_data_disabled entry Hoff).
  rewrite (dget_lookup _ _ _ _ Hid).
  unfold bind at 1. unfold bind at 1, lift at 1. cbn [fst snd].
  cbn [subscript_value subscript]. rewrite Hrec.
  reflexivity.
Qed.

(** The loop over the keys of the listing, seen from one service [svc]
    whose record is a dict: when [svc] is among the keys, its entry is
    disabled and names [svc], and no other entry names [svc], the record
    of [svc] ends with the inactive flag and keeps its other fields. *)
Lemma discover_loop (listing : dict) (svc : string) (entry : dict) :
  lookup svc listing = Some (VDict entry) ->
  lookup "id" entry = Some (VStr svc) ->
  truthy (dget entry "isEnabled" (VBool false)) = false ->
  (forall k v, k <> svc -> lookup k listing = Some v ->
               get v "id" VNone <> Ret (VStr svc)) ->
  forall (ks : list string) (w : world) (rec : dict),
    lookup svc (services w) = Some (VDict rec) ->
    exists w' rec',
      for_each ks (discover_service listing) w = (Ret tt, w') /\
      trace w' = trace w /\ url w' = url w /\
      lookup svc (services w') = Some (VDict rec') /\
      (forall field, field <> "active" ->
         lookup field rec' = lookup field rec) /\
      (In svc ks \/ lookup "active" rec = Some (VBool false) ->
       lookup "active" rec' = Some (VBool false)).
Proof.
  intros Hentry Hid Hoff Hothers.
  induction ks as [|k ks IH]; intros w rec Hrec.
  - exists w, rec. cbn. repeat split; auto.
    intros [[]|Hdone]; exact Hdone.
  - cbn [for_each]. unfold bind at 1.
    assert (Hstep : exists w1 rec1,
               discover_service listing k w = (Ret tt, w1) /\
               trace w1 = trace w /\ url w1 = url w /\
               lookup svc (services w1) = Some (VDict rec1) /\
               (forall field, field <> "active" ->
                  lookup field rec1 = lookup field rec) /\
               (k = svc \/ lookup "active" rec = Some (VBool false) ->
                lookup "active" rec1 = Some (VBool false))).
    { destruct (String.eqb_spec k svc) as [->|Hne].
      - rewrite (discover_service_disabled listing svc entry rec w
                   Hentry Hid Hoff Hrec).
        eexists. exists (setitem "active" (VBool false) rec).
        split; [reflexivity|]. cbn.
        split; [reflexivity|]. split; [reflexivity|].
        split; [apply lookup_setitem_eq|].
        split; [intros field Hf; apply lookup_setitem_ne; congruence|].
        intros _. apply lookup_setitem_eq.
      - destruct (discover_service_step listing k w)
          as (w1 & Hrun & Htr & Hurl & Hsvc).
        exists w1, rec. split; [exact Hrun|].
        split; [exact Htr|]. split; [exact Hurl|].
        split.
        + destruct Hsvc as [->|(v & name & data & target & Hk & Hdata
                                 & Htarget & ->)]; [exact Hrec|].
          apply service_data_name in Hdata.
          rewrite lookup_setitem_ne; [exact Hrec|].
          intros ->. exact (Hothers k v Hne Hk Hdata).
        + split; [auto|].
          intros [Heq|Hdone]; [contradiction | exact Hdone]. }
    destruct Hstep as (w1 & rec1 & Hrun & Htr & Hurl & Hrec1 & Hfields1
                       & Hactive1).
    rewrite Hrun.
    destruct (IH w1 rec1 Hrec1)
      as (w' & rec' & Hloop & Htr' & Hurl' & Hrec' & Hfields' & Hactive').
    exists w', rec'. split; [exact Hloop|].
    split; [congruence|]. split; [congruence|].
    split; [exact Hrec'|]. split.
    + intros field Hf. rewrite Hfields', Hfields1; auto.
    + intros [[Hk|Hin]|Hdone]; apply Hactive'; auto.
Qed.

Lemma lookup_In_keys (k : string) (d : dict) (v : value) :
  lookup k d = Some v -> In k (keys d).
Proof.
  induction d as [|[k' v'] d IH]; simpl; [discriminate|].
  destruct (String.eqb_spec k k'); auto.
Qed.

(** C8, as the code has it: a service is reported active after a first
    discovery; the listing of a second discovery holds, under the key of
    the service, a disabled entry whose "id" is the service, and no other
    entry carries that "id".  Then the second discovery ends with the
    service reported inactive: the entry overwrites the flag and adds
    nothing else to the record. *)
Theorem discover_overwrites_active_flag
    (w0 w1 : world) (svc : string) (flag : value)
    (response listing entry : dict) :
  discover E w0 = (Ret tt, w1) ->
  service_active svc w1 = (Ret flag, w1) ->
  truthy flag = true ->
  backend E (trace w1) (getOperationList (url w1)) = Answer (VDict response) ->
  parameters_mergeable E w1 (dget response "parameters" (VDict [])) ->
  lookup "capabilities" response = Some (VDict listing) ->
  lookup svc listing = Some (VDict entry) ->
  lookup "id" entry = Some (VStr svc) ->
  truthy (dget entry "isEnabled" (VBool false)) = false ->
  (forall k v, k <> svc -> lookup k listing = Some v ->
               get v "id" VNone <> Ret (VStr svc)) ->
  exists w2 rec1 rec2,
    discover E w1 = (Ret tt, w2) /\
    service_active svc w2 = (Ret (VBool false), w2) /\
    lookup svc (services w1) = Some (VDict rec1) /\
    lookup svc (services w2) = Some (VDict rec2) /\
    lookup "active" rec2 = Some (VBool false) /\
    (PARAMETERS E <> svc ->
     forall field, field <> "active" ->
       lookup field rec2 = lookup field rec1).
Proof.
  intros _ Hactive Hflag Hreply Hparams Hcaps Hentry Hid Hoff Hothers.
  (* the record of the service is a dict, since it is reported active *)
  assert (Hrec1 : exists rec1, lookup svc (services w1) = Some (VDict rec1)).
  { unfold service_active, bind, gets, lift, dget in Hactive.
    destruct (lookup svc (services w1)) as [[| | | | | | |rec1| |]|];
      try discriminate; [now exists rec1|].
    cbn in Hactive. inversion Hactive; subst. discriminate. }
  destruct Hrec1 as [rec1 Hrec1].
  (* the merge of the parameter bag keeps it a dict *)
  assert (Hmerge :
            exists w1' rec1',
              (if truthy (dget response "parameters" (VDict [])) then
                 svcs <- gets services ;;
                 target <- lift (subscript (VDict svcs) (PARAMETERS E)) ;;
                 updated <- lift (update_method target
                                    (dget response "parameters" (VDict []))) ;;
                 modify (fun w =>
                   with_services
                     (setitem (PARAMETERS E) updated (services w)) w)
               else ret tt)
                (with_trace (EvCall (getOperationList (url w1)) :: trace w1) w1)
              = (Ret tt, w1') /\
              lookup svc (services w1') = Some (VDict rec1') /\
              (PARAMETERS E <> svc -> rec1' = rec1)).
  { destruct Hparams as [Hfalsy|(p & target & Hp & Htarget)].
    - rewrite Hfalsy. eexists. exists rec1.
      split; [reflexivity|]. split; [exact Hrec1 | reflexivity].
    - rewrite Hp.
      destruct p as [|kv p].
      + eexists. exists rec1.
        split; [reflexivity|]. split; [exact Hrec1 | reflexivity].
      + cbn [truthy]. unfold bind, gets, lift, modify, subscript.
        cbn [services with_trace]. rewrite Htarget. cbn [update_method].
        eexists.
        destruct (String.eqb_spec (PARAMETERS E) svc) as [Heq|Hne].
        * exists (update target (kv :: p)).
          split; [reflexivity|]. cbn [services with_services].
          rewrite Heq. split; [apply lookup_setitem_eq | congruence].
        * exists rec1. split; [reflexivity|]. cbn [services with_services].
          rewrite lookup_setitem_ne by exact Hne.
          split; [exact Hrec1 | reflexivity]. }
  destruct Hmerge as (w1' & rec1' & Hmerge & Hrec1' & Hsame).
  destruct (discover_loop listing svc entry Hentry Hid Hoff Hothers
              (keys listing) w1' rec1' Hrec1')
    as (w2 & rec2 & Hloop & _ & _ & Hrec2 & Hfields & Hdone).
  specialize (Hdone (or_introl (lookup_In_keys _ _ _ Hentry))).
  exists (with_discovered true w2), rec1, rec2.
  split.
  { unfold discover. unfold bind at 1, vin. unfold gets at 1.
    unfold bind at 1, await_call. rewrite Hreply. cbn [result_of_reply].
    unfold bind at 1, lift at 1. cbn [get].
    unfold bind at 1, lift at 1. cbn [get].
    rewrite (dget_lookup _ _ _ _ Hcaps).
    unfold bind at 1. rewrite Hmerge.
    unfold bind at 1.
    replace (truthy (VDict listing)) with true
      by (destruct listing; [discriminate | reflexivity]).
    rewrite Hloop. reflexivity. }
  split.
  { unfold service_active, bind, gets, lift. cbn [services with_discovered].
    rewrite (dget_lookup _ _ _ _ Hrec2). cbn [get].
    rewrite (dget_lookup _ _ _ _ Hdone). reflexivity. }
  split; [exact Hrec1|]. split; [exact Hrec2|]. split; [exact Hdone|].
  intros Hne field Hf. rewrite (Hfields field Hf), (Hsame Hne). reflexivity.
Qed.

End Discovery.

(** Two discoveries in a row: the first listing enables the access
    service, the second disables it. *)
Lemma discover_overwrites_active_flag_witness :
  exists w1 w2,
    discover (env_with relisting_backend)
      (init (env_with relisting_backend) "WVWZZZ") = (Ret tt, w1) /\
    service_active "access" w1 = (Ret (VBool true), w1) /\
    discover (env_with relisting_backend) w1 = (Ret tt, w2) /\
    service_active "access" w2 = (Ret (VBool false), w2).
Proof.
  set (E := env_with relisting_backend).
  set (w1 := snd (discover E (init E "WVWZZZ"))).
  assert (Hfirst : discover E (init E "WVWZZZ") = (Ret tt, w1))
    by (vm_compute; reflexivity).
  assert (Hactive : service_active "access" w1 = (Ret (VBool true), w1))
    by (vm_compute; reflexivity).
  destruct (discover_overwrites_active_flag E (init E "WVWZZZ") w1 "access"
              (VBool true)
              [("capabilities",
                VDict
                  [("access",
                    VDict [("id", VStr "access"); ("isEnabled", VBool false);
                           ("status", VInt 1004)])])]
              [("access",
                VDict [("id", VStr "access"); ("isEnabled", VBool false);
                       ("status", VInt 1004)])]
              [("id", VStr "access"); ("isEnabled", VBool false);
               ("status", VInt 1004)]
              Hfirst Hactive eq_refl eq_refl (or_introl eq_refl)
              eq_refl eq_refl eq_refl eq_refl)
    as (w2 & rec1 & rec2 & Hsecond & Hinactive & _).
  - intros k v Hk Hlookup. cbn in Hlookup.
    destruct (String.eqb_spec k "access"); [contradiction | discriminate].
  - exists w1, w2. auto.
Defined.

(** C8 as stated fails: the second listing disables the access service
    with an entry that has no "id" field; the entry is skipped and the
    service is still reported active. *)
Lemma discover_skips_entry_without_id :
  exists w1 w2,
    discover (env_with relisting_without_id_backend)
      (init (env_with relisting_without_id_backend) "WVWZZZ") = (Ret tt, w1) /\
    service_active "access" w1 = (Ret (VBool true), w1) /\
    backend (env_with relisting_without_id_backend) (trace w1)
      (getOperationList (url w1))
    = Answer
        (VDict
           [("capabilities",
             VDict
               [("access",
                 VDict [("isEnabled", VBool false);
                        ("status", VInt 1004)])])]) /\
    discover (env_with relisting_without_id_backend) w1 = (Ret tt, w2) /\
    service_active "access" w2 = (Ret (VBool true), w2).
Proof.
  do 2 eexists.
  split; [vm_compute; reflexivity|].
  split; [vm_compute; reflexivity|].
  split; [vm_compute; reflexivity|].
  split; vm_compute; reflexivity.
Qed.

(** ** More on the path query engine *)

Section Paths.

Lemma split_nonempty (sep : ascii) (s : string) : split sep s <> [].
Proof.
  destruct s as [|c s]; simpl; [discriminate|].
  destruct (Ascii.eqb c sep); [discriminate|].
  destruct (split sep s); discriminate.
Qed.

Lemma split_app (sep : ascii) (a b : string) :
  split sep (a ++ String sep b) = (split sep a ++ split sep b)%list.
Proof.
  induction a as [|c a IH]; simpl.
  - now rewrite Ascii.eqb_refl.
  - destruct (Ascii.eqb c sep); [now rewrite IH|].
    rewrite IH. pose proof (split_nonempty sep a) as Hne.
    destruct (split sep a); [contradiction | reflexivity].
Qed.

Lemma find_path_str (d : value) (s : string) :
  s <> "" -> find_path d (PathStr s) = find_path_list d (split "." s).
Proof.
  intros Hs. unfold find_path; simpl.
  destruct (String.eqb_spec s ""); [contradiction | reflexivity].
Qed.

Lemma app_dot_nonempty (a b : string) : a ++ "." ++ b <> "".
Proof. destruct a; discriminate. Qed.

(** Looking up [a.b] is looking up [a] and then [b] in what was found,
    as long as neither part is empty. *)
Theorem find_path_composes (d : value) (a b : string) :
  a <> "" -> b <> "" ->
  find_path d (PathStr (a ++ "." ++ b))
  = (v <- find_path d (PathStr a) ;; find_path v (PathStr b))%res.
Proof.
  intros Ha Hb.
  rewrite (find_path_str d _ (app_dot_nonempty a b)), (find_path_str d a Ha).
  change (a ++ "." ++ b) with (a ++ String "." b).
  rewrite split_app, find_path_list_app.
  destruct (find_path_list d (split "." a)) as [v|e|]; simpl; auto.
  now rewrite (find_path_str v b Hb).
Qed.

Lemma find_path_composes_witness :
  find_path (VDict [("a", VDict [("b", VInt 1)])]) (PathStr ("a" ++ "." ++ "b"))
  = (v <- find_path (VDict [("a", VDict [("b", VInt 1)])]) (PathStr "a") ;;
     find_path v (PathStr "b"))%res.
Proof.
  apply (find_path_composes (VDict [("a", VDict [("b", VInt 1)])]) "a" "b");
    discriminate.
Defined.

(** A path that ends in a dot asks for the empty key of what the path
    before the dot resolves to; it does not resolve to that value. *)
Theorem find_path_trailing_dot (d : value) (a : string) :
  a <> "" ->
  find_path d (PathStr (a ++ "."))
  = (v <- find_path d (PathStr a) ;; subscript v "")%res.
Proof.
  intros Ha.
  assert (Hne : a ++ "." <> "") by (destruct a; discriminate).
  rewrite (find_path_str d _ Hne), (find_path_str d a Ha).
  change (a ++ ".") with (a ++ String "." "").
  rewrite split_app, find_path_list_app.
  destruct (find_path_list d (split "." a)) as [v|e|]; simpl; auto.
  destruct (subscript v ""); reflexivity.
Qed.

Lemma find_path_trailing_dot_witness :
  find_path (VDict [("a", VInt 1)]) (PathStr ("a" ++ "."))
  = (v <- find_path (VDict [("a", VInt 1)]) (PathStr "a") ;;
     subscript v "")%res.
Proof.
  apply (find_path_trailing_dot (VDict [("a", VInt 1)]) "a"). discriminate.
Defined.

Lemma find_path_list_KeyError (segs : list string) :
  forall (d k : value),
    find_path_list d segs = Raise (KeyError k) ->
    exists seg, k = VStr seg /\ In seg segs.
Proof.
  induction segs as [|seg segs IH]; intros d k; simpl; [discriminate|].
  destruct d as [| | | | | | |m| |]; simpl; try discriminate.
  destruct (lookup seg m) as [v|].
  - intros H. destruct (IH v k H) as (s & Hk & Hin). eauto.
  - intros H. inversion H. eauto.
Qed.

(** The KeyError of [find_path] names a segment of the path: the one
    that is missing. *)
Theorem find_path_KeyError_names_segment (d k : value) (s : string) :
  find_path d (PathStr s) = Raise (KeyError k) ->
  exists seg, k = VStr seg /\ In seg (split "." s).
Proof.
  unfold find_path; simpl.
  destruct (String.eqb s ""); [discriminate|].
  apply find_path_list_KeyError.
Qed.

Lemma find_path_KeyError_names_segment_witness :
  exists seg, VStr "c" = VStr seg /\ In seg (split "." "a.c").
Proof.
  apply (find_path_KeyError_names_segment
           (VDict [("a", VDict [("b", VInt 1)])]) (VStr "c") "a.c").
  reflexivity.
Defined.

(** Validity is closed under prefixes: when [a.b] is a valid path so is
    [a], and when [a] is reported missing so is [a.b]. *)
Theorem is_valid_path_prefix (d : value) (a b : string) :
  a <> "" -> b <> "" ->
  (is_valid_path d (PathStr (a ++ "." ++ b)) = Ret true ->
   is_valid_path d (PathStr a) = Ret true) /\
  (is_valid_path d (PathStr a) = Ret false ->
   is_valid_path d (PathStr (a ++ "." ++ b)) = Ret false).
Proof.
  intros Ha Hb. unfold is_valid_path.
  rewrite (find_path_composes d a b Ha Hb).
  destruct (find_path d (PathStr a)) as [v|e|]; simpl.
  - split; [reflexivity | discriminate].
  - split; [|auto]. destruct (is_KeyError e); discriminate.
  - split; discriminate.
Qed.

Lemma is_valid_path_prefix_witness :
  is_valid_path (VDict [("a", VDict [("b", VInt 1)])]) (PathStr "a") = Ret true.
Proof.
  apply (is_valid_path_prefix (VDict [("a", VDict [("b", VInt 1)])]) "a" "b");
    try discriminate.
  reflexivity.
Defined.

End Paths.

(** ** Slugs *)

Section SlugProperties.

Lemma to_lower_not_upper (c : ascii) : is_upper (to_lower c) = false.
Proof.
  unfold to_lower. destruct (is_upper c) eqn:Hc; [|exact Hc].
  unfold is_upper in *.
  apply andb_true_iff in Hc. destruct Hc as [Hlo Hhi].
  apply Nat.leb_le in Hlo. apply Nat.leb_le in Hhi.
  rewrite nat_ascii_embedding by lia.
  apply andb_false_iff. right. apply Nat.leb_gt. lia.
Qed.

Lemma no_capitals_lower (s : string) : no_capitals (lower s) = true.
Proof.
  induction s as [|c s IH]; simpl; [reflexivity|].
  now rewrite to_lower_not_upper, IH.
Qed.

Lemma no_capitals_lstrip (c : ascii) (s : string) :
  no_capitals s = true -> no_capitals (lstrip c s) = true.
Proof.
  induction s as [|c' s IH]; simpl; [auto|].
  intros H. apply andb_true_iff in H. destruct H as [Hc Hs].
  destruct (Ascii.eqb c' c); [auto|]. simpl. now rewrite Hc, Hs.
Qed.

Lemma no_leading_underscore_lstrip (s : string) :
  no_leading_underscore (lstrip "_" s) = true.
Proof.
  induction s as [|c s IH]; simpl; [reflexivity|].
  destruct (Ascii.eqb c "_") eqn:Hc; [exact IH|]. simpl. now rewrite Hc.
Qed.

Lemma underscore_capitals_id (s : string) :
  no_capitals s = true -> underscore_capitals s = s.
Proof.
  induction s as [|c s IH]; simpl; [reflexivity|].
  intros H. apply andb_true_iff in H. destruct H as [Hc Hs].
  apply negb_true_iff in Hc. rewrite Hc, IH; auto.
Qed.

Lemma lower_id (s : string) : no_capitals s = true -> lower s = s.
Proof.
  induction s as [|c s IH]; simpl; [reflexivity|].
  intros H. apply andb_true_iff in H. destruct H as [Hc Hs].
  apply negb_true_iff in Hc. unfold to_lower. rewrite Hc, IH; auto.
Qed.

Lemma lstrip_id (s : string) :
  no_leading_underscore s = true -> lstrip "_" s = s.
Proof.
  destruct s as [|c s]; simpl; [reflexivity|].
  intros H. apply negb_true_iff in H. now rewrite H.
Qed.

Lemma camel2slug_is_plain (s : string) :
  no_capitals (camel2slug s) = true /\
  no_leading_underscore (camel2slug s) = true.
Proof.
  unfold camel2slug. split.
  - apply no_capitals_lstrip, no_capitals_lower.
  - apply no_leading_underscore_lstrip.
Qed.

(** The slug of an ASCII string holds no capital letter and does not
    begin with an underscore. *)
Theorem camel2slug_shape (s : string) :
  is_ascii s = true ->
  no_capitals (camel2slug s) = true /\
  no_leading_underscore (camel2slug s) = true.
Proof. intros _. apply camel2slug_is_plain. Qed.

Lemma camel2slug_shape_witness :
  no_capitals (camel2slug "__fooBarBaz") = true /\
  no_leading_underscore (camel2slug "__fooBarBaz") = true.
Proof. apply (camel2slug_shape "__fooBarBaz"). reflexivity. Defined.

(** A string without capitals and without a leading underscore is its own
    slug, so that taking the slug twice is taking it once. *)
Theorem camel2slug_idempotent (s : string) :
  is_ascii s = true ->
  (no_capitals s = true -> no_leading_underscore s = true ->
   camel2slug s = s) /\
  camel2slug (camel2slug s) = camel2slug s.
Proof.
  intros Hascii.
  assert (Hfix : forall t, no_capitals t = true ->
                           no_leading_underscore t = true ->
                           camel2slug t = t).
  { intros t Hcap Hlead. unfold camel2slug.
    rewrite (underscore_capitals_id t Hcap), (lower_id t Hcap).
    apply lstrip_id, Hlead. }
  split; [apply Hfix|].
  destruct (camel2slug_is_plain s) as [Hcap Hlead].
  apply Hfix; assumption.
Qed.

Lemma camel2slug_idempotent_witness :
  camel2slug (camel2slug "fooBar") = camel2slug "fooBar".
Proof. apply (camel2slug_idempotent "fooBar"). reflexivity. Defined.

(** The example of the docstring. *)
Example camel2slug_fooBar : camel2slug "fooBar" = "foo_bar".
Proof. reflexivity. Qed.

End SlugProperties.

(** ** More on the polling loop *)

Section PollingBudget.

Variable E : env.

(** The first reply decides when it is not "In Progress": a status is
    returned at once, after one query and without a sleep, and is noted
    under "state"; a failing query gives "Exception" instead of raising. *)
Theorem wait_for_request_first_reply
    (fuel : nat) (request : value) (retry_count : Z) (w : world) :
  retry_count <> 1 ->
  let query := get_request_status (url w) request in
  (forall status,
     backend E (trace w) query = Answer status ->
     eq_str status "In Progress" = false ->
     wait_for_request E (S fuel) request retry_count w
     = (Ret status,
        with_requests (setitem "state" status (requests w))
          (with_trace (EvCall query :: trace w) w))) /\
  (forall e,
     backend E (trace w) query = Fails e ->
     wait_for_request E (S fuel) request retry_count w
     = (Ret (VStr "Exception"), with_trace (EvCall query :: trace w) w)).
Proof.
  intros Hrc query. cbn [wait_for_request].
  replace (retry_count - 1 =? 0) with false
    by (symmetry; apply Z.eqb_neq; lia).
  subst query.
  split; [intros status Hreply Hterminal | intros e Hreply];
    unfold try_except, bind at 1, vin, gets; cbv beta iota;
    unfold bind at 1, await_call; cbv beta iota;
    rewrite Hreply; cbn [result_of_reply].
  - unfold bind at 1, set_request, modify. cbv beta iota.
    rewrite Hterminal. reflexivity.
  - reflexivity.
Qed.

Lemma queries_app (evs tr : list event) :
  queries (evs ++ tr) = (queries evs + queries tr)%nat.
Proof.
  induction evs as [|[c|s] evs IH]; simpl; auto.
  destruct c; simpl; auto.
Qed.

(** Whatever the backend answers, a run with a [retry_count] of [n + 1]
    makes at most [n] status queries: 17 with the default of 18, none at
    all with a [retry_count] of 1. *)
Theorem wait_for_request_query_bound (request : value) :
  forall (n fuel : nat) (w : world),
    (queries (trace (snd (wait_for_request E fuel request
                            (Z.of_nat (S n)) w)))
     <= n + queries (trace w))%nat.
Proof.
  induction n as [|n IH]; intros fuel w;
    (destruct fuel as [|fuel]; [simpl; lia|]); cbn [wait_for_request].
  - simpl. unfold bind, lift, ret.
    destruct (getattr request "requestId"); simpl; lia.
  - replace (Z.of_nat (S (S n)) - 1) with (Z.of_nat (S n)) by lia.
    replace (Z.of_nat (S n) =? 0) with false
      by (symmetry; apply Z.eqb_neq; lia).
    unfold try_except, bind at 1, vin, gets.
    unfold bind at 1, await_call.
    destruct (backend E (trace w) (get_request_status (url w) request))
      as [status|e]; cbn [result_of_reply]; [|simpl; lia].
    unfold bind at 1, set_request, modify.
    destruct (eq_str status "In Progress"); [|simpl; lia].
    unfold bind at 1, sleep, modify.
    match goal with
    | |- context [wait_for_request E fuel request (Z.of_nat (S n)) ?w1] =>
        pose proof (IH fuel w1) as Hrec;
        destruct (wait_for_request E fuel request (Z.of_nat (S n)) w1)
          as [[s|e|] w1']
    end; simpl in *; lia.
Qed.

End PollingBudget.

Lemma wait_for_request_first_reply_witness :
  wait_for_request (env_of failing_poll_backend) 18 (VInt 7) 18
    (init (env_of failing_poll_backend) "WVWZZZ")
  = (Ret (VStr "Exception"),
     with_trace [EvCall (get_request_status "WVWZZZ" (VInt 7))]
       (init (env_of failing_poll_backend) "WVWZZZ")).
Proof.
  destruct (wait_for_request_first_reply (env_of failing_poll_backend) 17
              (VInt 7) 18 (init (env_of failing_poll_backend) "WVWZZZ"))
    as [_ Hfails]; [discriminate|].
  apply (Hfails (Exception (MsgText "connection lost"))). reflexivity.
Defined.

(** ** The lock entity, the lock sensor and the charger current *)

Section Entities.

Variable E : env.

Lemma has_path_true_reads (suffix service : string) (w : world) :
  has_path suffix service w = (Ret true, w) ->
  exists v, read_path suffix service w = (Ret v, w).
Proof.
  unfold has_path, read_path, attrs, bind, gets, lift. intros H.
  injection H as H.
  destruct (is_valid_path_true_inv _ _ H) as [v Hv].
  exists v. rewrite Hv. reflexivity.
Qed.

Lemma has_path_world (suffix service : string) (w : world) :
  snd (has_path suffix service w) = w.
Proof. apply reader_has_path. Qed.

(** The lock entity and the lock sensor are never offered together, and
    where one of them is offered, [door_locked] returns: the path that
    was checked is the path that is read. *)
Theorem door_lock_entities_exclusive (w : world) :
  ~ (fst (is_door_locked_supported E w) = Ret true /\
     fst (is_door_locked_sensor_supported E w) = Ret true) /\
  (fst (is_door_locked_supported E w) = Ret true \/
   fst (is_door_locked_sensor_supported E w) = Ret true ->
   exists b, door_locked E w = (Ret b, w)).
Proof.
  unfold is_door_locked_supported, is_door_locked_sensor_supported.
  unfold bind at 1 2 3 4.
  destruct (reader_run (service_active (ACCESS E)) w
              (reader_service_active _)) as (r & Hr & Hnd).
  rewrite Hr. clear Hr.
  assert (Hread : fst (has_path door_lock_status (ACCESS E) w) = Ret true ->
                  exists b, door_locked E w = (Ret b, w)).
  { intros Hvalid.
    destruct (has_path_true_reads door_lock_status (ACCESS E) w) as [v Hv].
    - pose proof (has_path_world door_lock_status (ACCESS E) w) as Hw.
      destruct (has_path door_lock_status (ACCESS E) w) as [r0 w0].
      simpl in *. subst. reflexivity.
    - exists (eq_str v "locked"). unfold door_locked, bind.
      rewrite Hv. reflexivity. }
  destruct r as [active|e|]; [|simpl|contradiction].
  - destruct (truthy active); simpl.
    + split; [intros [_ H]; discriminate|].
      intros [H|H]; [auto | discriminate].
    + split; [intros [H _]; discriminate|].
      intros [H|H]; [discriminate | auto].
  - split; [intros [H _]; discriminate | intros [H|H]; discriminate].
Qed.

(** Where the lock sensor is offered, the lock cannot be operated:
    [set_lock] raises before it calls the backend, and leaves the vehicle
    as it is. *)
Theorem lock_sensor_excludes_set_lock (action spin : value) (w : world) :
  fst (is_door_locked_sensor_supported E w) = Ret true ->
  set_lock E action spin w
  = (Raise (Exception (MsgText "Remote lock/unlock is not supported.")), w).
Proof.
  unfold is_door_locked_sensor_supported, set_lock.
  unfold bind at 1 2.
  destruct (reader_run (service_active (ACCESS E)) w
              (reader_service_active _)) as (r & Hr & Hnd).
  rewrite Hr. clear Hr.
  destruct r as [active|e|]; [| discriminate | contradiction].
  destruct (truthy active); simpl; [discriminate|]. reflexivity.
Qed.

Section Current.

Variable parse_int : string -> option Z.

Lemma int_of_never_diverges (v : value) : int_of parse_int v <> Diverge.
Proof.
  destruct v; simpl; try discriminate.
  destruct (parse_int s); discriminate.
Qed.

Lemma charger_current_request_is_no_action (n : Z) :
  in_strs (charger_current_request n) ["start"; "stop"] = false.
Proof. reflexivity. Qed.

(** [set_charger_current] never sets a current: whatever the value and
    the vehicle, it raises, makes no call and leaves the vehicle as it is.
    A current from 1 to 255 gives a request that [set_charger] refuses as
    an unknown action. *)
Theorem set_charger_current_always_raises (value : value) (w : world) :
  (exists e, set_charger_current E parse_int value w = (Raise e, w)) /\
  (forall n,
     is_charging_supported E w = (Ret true, w) ->
     int_of parse_int value = Ret n -> 1 <= n <= 255 ->
     set_charger_current E parse_int value w
     = (Raise (Exception
                 (MsgFmt ("Charging action " ++ dquote)
                    (charger_current_request n)
                    (dquote ++ " is not supported."))), w)).
Proof.
  assert (Hcharger : forall n,
            is_charging_supported E w = (Ret true, w) ->
            set_charger E (charger_current_request n) w
            = (Raise (Exception
                        (MsgFmt ("Charging action " ++ dquote)
                           (charger_current_request n)
                           (dquote ++ " is not supported."))), w)).
  { intros n Hs. unfold set_charger. unfold bind at 1. rewrite Hs.
    rewrite charger_current_request_is_no_action. reflexivity. }
  split.
  - unfold set_charger_current. unfold bind at 1.
    destruct (reader_run (is_charging_supported E) w
                (reader_is_charging_supported E)) as (r & Hr & Hnd).
    rewrite Hr.
    destruct r as [[|]|e|];
      [| eexists; reflexivity | eexists; reflexivity | contradiction].
    cbv beta iota. unfold bind at 1, lift.
    destruct (int_of parse_int value) as [n|e|] eqn:Hn;
      [| eexists; reflexivity | exfalso; revert Hn; apply int_of_never_diverges].
    cbv beta iota. destruct ((1 <=? n) && (n <=? 255)).
    + unfold bind at 1. unfold bind at 1, lift.
      cbv beta iota. unfold ret. rewrite (Hcharger n Hr). eauto.
    + unfold bind at 1, raise. eauto.
  - intros n Hs Hn Hrange. unfold set_charger_current.
    unfold bind at 1. rewrite Hs. cbv beta iota.
    unfold bind at 1, lift. rewrite Hn. cbv beta iota.
    replace ((1 <=? n) && (n <=? 255)) with true
      by (symmetry; apply andb_true_iff; split; apply Z.leb_le; lia).
    unfold bind at 1. unfold bind at 1, lift.
    cbv beta iota. unfold ret. apply Hcharger, Hs.
Qed.

End Current.

End Entities.

Lemma lock_sensor_excludes_set_lock_witness :
  set_lock (env_of busy_backend) (VStr "lock") (VStr "1234")
    (with_states
       [("access",
         VDict [("accessStatus",
                 VDict [("value",
                         VDict [("doorLockStatus", VStr "locked")])])])]
       (init (env_of busy_backend) "WVWZZZ"))
  = (Raise (Exception (MsgText "Remote lock/unlock is not supported.")),
     with_states
       [("access",
         VDict [("accessStatus",
                 VDict [("value",
                         VDict [("doorLockStatus", VStr "locked")])])])]
       (init (env_of busy_backend) "WVWZZZ")).
Proof.
  apply (lock_sensor_excludes_set_lock (env_of busy_backend)). reflexivity.
Defined.

(** ** Expiry *)

Section Expiry.

Variable E : env.

(** With a clock that does not run backwards by a day, [expired] never
    raises and answers True exactly when the record of the service holds
    a [datetime] whose fields, read without their zone, are not later than
    the first reading of the clock; only then is the vehicle marked for a
    new discovery.  An expiration kept as a string, as the listing of
    [discover] provides it, is never found expired. *)
Theorem expired_iff (service : string) (w : world) :
  (forall n, clock E n < clock E (S n) + days 1) ->
  fst (expired E service w)
  = Ret (match expiration_date service w with
         | Some t => t <=? clock E (ticks w)
         | None => false
         end) /\
  discovered (snd (expired E service w))
  = match fst (expired E service w) with
    | Ret true => false
    | _ => discovered w
    end /\
  services (snd (expired E service w)) = services w.
Proof.
  intros Hclock.
  assert (Htomorrow :
            (clock E (S (ticks w)) + days 1 <=? clock E (ticks w)) = false).
  { apply Z.leb_gt, Hclock. }
  unfold expired, try_except, service_expiration, expiration_date.
  unfold bind, now, gets, lift, ret, modify.
  cbn -[dget truthy Z.add Z.leb days clock].
  destruct (dget (services w) service (VDict [])) as [| | | | | | |rec| |]
    eqn:Hd; try (simpl; auto; fail).
  cbn -[dget truthy Z.add Z.leb days clock].
  set (known := dget rec "expiration" (VBool false)).
  replace (match lookup "expiration" rec with
           | Some (VTime t) => Some t
           | Some (VZoned t o) => Some (t + o)
           | _ => None
           end)
    with (match known with
          | VTime t => Some t
          | VZoned t o => Some (t + o)
          | _ => None
          end)
    by (unfold known, dget; destruct (lookup "expiration" rec); auto).
  destruct (truthy known) eqn:Htruthy;
    cbn -[dget truthy Z.add Z.leb days clock].
  - rewrite Hd. cbn -[dget truthy Z.add Z.leb days clock]. fold known.
    rewrite Htruthy. cbn -[dget truthy Z.add Z.leb days clock].
    destruct known as [|b|z|q|s|t|l|d|o|t' o']; simpl; auto.
    + destruct (t <=? clock E (ticks w)); simpl; auto.
    + destruct (t' + o' <=? clock E (ticks w)); simpl; auto.
  - rewrite Htomorrow. simpl.
    destruct known; simpl in *; auto; discriminate.
Qed.

End Expiry.

(** An expiration one hour back, kept in a zone two hours ahead of UTC:
    its fields read one hour ahead of the clock, and the service is not
    found expired. *)
Lemma expired_iff_witness :
  fst (expired (env_of busy_backend) "access"
         (with_services
            [("access",
              VDict [("active", VBool true);
                     ("expiration",
                      VZoned (minutes 6 - 3600000000) 7200000000)])]
            (init (env_of busy_backend) "WVWZZZ")))
  = Ret false.
Proof.
  apply (expired_iff (env_of busy_backend) "access"). intros n.
  change (minutes (Z.of_nat n) < minutes (Z.of_nat (S n)) + days 1).
  unfold minutes, days. lia.
Defined.

(** An expiration kept as the string of the listing is not found
    expired, and one kept as a [datetime] in UTC is, once it is past. *)
Example expired_on_a_string_and_on_a_date :
  fst (expired (env_of busy_backend) "access"
         (with_services
            [("access",
              VDict [("active", VBool true);
                     ("expiration", VStr "2020-01-01T00:00:00Z")])]
            (init (env_of busy_backend) "WVWZZZ")))
  = Ret false /\
  expired (env_of busy_backend) "access"
    (with_services
       [("access",
         VDict [("active", VBool true); ("expiration", VTime (minutes 5))])]
       (init (env_of busy_backend) "WVWZZZ"))
  = (Ret true,
     with_discovered false
       (with_ticks 7
          (with_services
             [("access",
               VDict [("active", VBool true);
                      ("expiration", VTime (minutes 5))])]
             (init (env_of busy_backend) "WVWZZZ")))).
Proof. split; reflexivity. Qed.

(** ** The remaining quota and the results of the requests *)

Section Quota.

Variable E : env.

Lemma requests_remaining_idle (w : world) :
  truthy (dget (states w) "rate_limit_remaining" (VBool false)) = false ->
  requests_remaining E w = (subscript (VDict (requests w)) "remaining", w).
Proof.
  intros Hidle. unfold requests_remaining.
  unfold bind at 1. unfold bind at 1, gets at 1. cbv beta iota.
  rewrite Hidle. reflexivity.
Qed.

Lemma requests_remaining_transfer (w : world) (v : value) :
  lookup "rate_limit_remaining" (states w) = Some v ->
  truthy v = true ->
  requests_remaining E w
  = (Ret v,
     with_states (remove "rate_limit_remaining" (states w))
       (with_requests
          (setitem "remaining_updated" (VTime (clock E (ticks w)))
             (setitem "remaining" v (requests w)))
          (with_ticks (S (ticks w)) w))).
Proof.
  intros Hlimit Htruthy. unfold requests_remaining.
  unfold bind at 1. unfold bind at 1, gets at 1. cbv beta iota.
  unfold dget at 1. rewrite Hlimit, Htruthy.
  unfold bind, gets, set_request, modify, now, attrs, lift, mem.
  cbn -[setitem remove lookup]. unfold dget. rewrite Hlimit.
  cbn -[setitem remove]. 
  rewrite lookup_setitem_ne by discriminate.
  rewrite lookup_setitem_eq. reflexivity.
Qed.

(** A quota found among the states is moved to the requests by the first
    reading of [requests_remaining], which returns it; a quota of 0 is
    not moved.  A second reading returns what the first returned and
    changes nothing. *)
Theorem requests_remaining_transfers_once (w : world) :
  (forall v,
     lookup "rate_limit_remaining" (states w) = Some v ->
     fst (requests_remaining E w)
     = (if truthy v then Ret v
        else subscript (VDict (requests w)) "remaining") /\
     lookup "rate_limit_remaining" (states (snd (requests_remaining E w)))
     = (if truthy v then None else Some v)) /\
  requests_remaining E (snd (requests_remaining E w))
  = requests_remaining E w.
Proof.
  destruct (lookup "rate_limit_remaining" (states w)) as [v|] eqn:Hlimit.
  - destruct (truthy v) eqn:Htruthy.
    + rewrite (requests_remaining_transfer w v Hlimit Htruthy).
      split.
      * intros v' Hv'. injection Hv' as <-. rewrite Htruthy. simpl.
        split; [reflexivity | apply lookup_remove_eq].
      * cbn [snd]. rewrite requests_remaining_idle.
        -- cbn -[setitem remove].
           rewrite lookup_setitem_ne by discriminate.
           rewrite lookup_setitem_eq. reflexivity.
        -- cbn -[remove]. unfold dget. rewrite lookup_remove_eq.
           reflexivity.
    + assert (Hidle : truthy (dget (states w) "rate_limit_remaining"
                                (VBool false)) = false)
        by (unfold dget; rewrite Hlimit; exact Htruthy).
      rewrite (requests_remaining_idle w Hidle). cbn [fst snd].
      split.
      * intros v' Hv'. injection Hv' as <-. rewrite Htruthy. auto.
      * apply requests_remaining_idle, Hidle.
  - assert (Hidle : truthy (dget (states w) "rate_limit_remaining"
                              (VBool false)) = false)
      by (unfold dget; rewrite Hlimit; reflexivity).
    rewrite (requests_remaining_idle w Hidle). cbn [fst snd].
    split; [intros v Hv; discriminate|].
    apply requests_remaining_idle, Hidle.
Qed.

End Quota.

Section Results.

Lemma lookup_keys (k : string) (d : dict) :
  existsb (String.eqb k) (keys d) = mem k d.
Proof.
  unfold mem. induction d as [|[k' v] d IH]; simpl; [reflexivity|].
  destruct (String.eqb k k'); simpl; auto.
Qed.

Lemma collect_results_lookup (r : dict) :
  forall (sections : list string) (data d : dict),
    collect_results r sections data = Ret d ->
    forall k,
      if existsb (String.eqb k) sections
         && existsb (String.eqb k) result_sections
      then exists fields,
             lookup k r = Some (VDict fields) /\
             lookup k d = Some (dget fields "status" (VStr "Unknown"))
      else lookup k d = lookup k data.
Proof.
  induction sections as [|section rest IH]; intros data d Hrun k.
  - simpl in *. injection Hrun as <-. reflexivity.
  - cbn [collect_results] in Hrun. cbn [existsb].
    destruct (existsb (String.eqb section) result_sections) eqn:Hlisted.
    + unfold subscript in Hrun.
      destruct (lookup section r) as [rec|] eqn:Hrec; [|discriminate].
      cbn [rbind] in Hrun.
      destruct rec as [| | | | | | |fields| |]; try discriminate.
      cbn [get rbind] in Hrun.
      specialize (IH _ _ Hrun k).
      destruct (String.eqb_spec k section) as [->|Hne].
      * rewrite Hlisted in *. cbn [orb andb].
        destruct (existsb (String.eqb section) rest); cbn [andb] in IH.
        -- exact IH.
        -- rewrite IH, lookup_setitem_eq. eauto.
      * cbn [orb].
        destruct (existsb (String.eqb k) rest
                  && existsb (String.eqb k) result_sections);
          [exact IH|].
        rewrite IH. apply lookup_setitem_ne. congruence.
    + specialize (IH _ _ Hrun k).
      destruct (String.eqb_spec k section) as [->|Hne].
      * rewrite Hlisted, andb_false_r in *. exact IH.
      * cbn [orb]. exact IH.
Qed.

(** What [request_results] returns holds "latest" and "state" as the
    requests have them (None when they do not), the status of each of the
    six listed sections that the requests hold, and nothing else: what the
    charging and the lock actions record under "charging" and "access" is
    not among the results. *)
Theorem request_results_sections (w : world) (d : dict) :
  fst (request_results w) = Ret (VDict d) ->
  lookup "latest" d = Some (dget (requests w) "latest" VNone) /\
  lookup "state" d = Some (dget (requests w) "state" VNone) /\
  (forall k rec,
     In k result_sections -> lookup k (requests w) = Some rec ->
     exists fields,
       rec = VDict fields /\
       lookup k d = Some (dget fields "status" (VStr "Unknown"))) /\
  (forall k,
     lookup k d <> None ->
     k = "latest" \/ k = "state" \/
     (In k result_sections /\ lookup k (requests w) <> None)).
Proof.
  unfold request_results, bind, gets, lift, ret. cbn [fst].
  destruct (collect_results (requests w) (keys (requests w)) _)
    as [d'| |] eqn:Hrun; try discriminate.
  intros Hd. injection Hd as ->.
  pose proof (collect_results_lookup _ _ _ _ Hrun) as Hlookup.
  split.
  { specialize (Hlookup "latest").
    rewrite andb_false_r in Hlookup. exact Hlookup. }
  split.
  { specialize (Hlookup "state").
    rewrite andb_false_r in Hlookup. exact Hlookup. }
  split.
  - intros k rec Hin Hrec. specialize (Hlookup k).
    rewrite lookup_keys in Hlookup. unfold mem in Hlookup.
    rewrite Hrec in Hlookup.
    replace (existsb (String.eqb k) result_sections) with true in Hlookup.
    + destruct Hlookup as (fields & Hfields & Hstatus).
      injection Hfields as ->. eauto.
    + symmetry. apply existsb_exists. exists k.
      split; [exact Hin | apply String.eqb_refl].
  - intros k Hk. specialize (Hlookup k).
    rewrite lookup_keys in Hlookup. unfold mem in Hlookup.
    destruct (lookup k (requests w)) as [rec|] eqn:Hrec.
    + destruct (existsb (String.eqb k) result_sections) eqn:Hlisted.
      * right. right. split; [|discriminate].
        apply existsb_exists in Hlisted. destruct Hlisted as (k' & Hin & Heq).
        apply String.eqb_eq in Heq. subst. exact Hin.
      * cbn [andb] in Hlookup. rewrite Hlookup in Hk. simpl in Hk.
        destruct (String.eqb_spec k "latest"); [auto|].
        destruct (String.eqb_spec k "state"); [auto|]. contradiction.
    + cbn [andb] in Hlookup. rewrite Hlookup in Hk. simpl in Hk.
      destruct (String.eqb_spec k "latest"); [auto|].
      destruct (String.eqb_spec k "state"); [auto|]. contradiction.
Qed.

End Results.

Lemma request_results_sections_witness :
  lookup "latest"
    [("latest", VStr ""); ("state", VStr ""); ("departuretimer", VStr "");
     ("batterycharge", VStr ""); ("climatisation", VStr "");
     ("refresh", VStr ""); ("lock", VStr ""); ("preheater", VStr "")]
  = Some (dget (requests (init (env_of busy_backend) "WVWZZZ")) "latest"
            VNone) /\
  lookup "state"
    [("latest", VStr ""); ("state", VStr ""); ("departuretimer", VStr "");
     ("batterycharge", VStr ""); ("climatisation", VStr "");
     ("refresh", VStr ""); ("lock", VStr ""); ("preheater", VStr "")]
  = Some (dget (requests (init (env_of busy_backend) "WVWZZZ")) "state"
            VNone) /\
  exists fields,
    VDict [("status", VStr ""); ("timestamp", VTime (minutes 4))]
    = VDict fields /\
    lookup "lock"
      [("latest", VStr ""); ("state", VStr ""); ("departuretimer", VStr "");
       ("batterycharge", VStr ""); ("climatisation", VStr "");
       ("refresh", VStr ""); ("lock", VStr ""); ("preheater", VStr "")]
    = Some (dget fields "status" (VStr "Unknown")).
Proof.
  destruct (request_results_sections
              (init (env_of busy_backend) "WVWZZZ") _ eq_refl)
    as (Hlatest & Hstate & Hsections & _).
  split; [exact Hlatest|]. split; [exact Hstate|].
  apply (Hsections "lock").
  - simpl. tauto.
  - reflexivity.
Defined.

(** ** The requests over the history of a vehicle *)

Section LedgerWrites.

Variable E : env.






























End LedgerWrites.

Section Histories.

Variable E : env.






Section LastUpdated.

Variable repr : value -> string.


End LastUpdated.

End Histories.






(** ** The frame of discovery *)

Section DiscoveryFrame.

Variable E : env.

Lemma keys_setitem_present (k : string) (v x : value) (d : dict) :
  lookup k d = Some x -> keys (setitem k v d) = keys d.
Proof.
  induction d as [|[k' v'] d IH]; simpl; [discriminate|].
  destruct (String.eqb_spec k k') as [->|Hne]; [reflexivity|].
  intros H. simpl. f_equal. apply IH, H.
Qed.

Lemma services_only_refl (w : world) : services_only w w.
Proof. unfold services_only. tauto. Qed.

Lemma services_only_trans (w1 w2 w3 : world) :
  services_only w1 w2 -> services_only w2 w3 -> services_only w1 w3.
Proof. unfold services_only. intuition congruence. Qed.

Lemma services_only_setitem (k : string) (v x : value) (w : world) :
  lookup k (services w) = Some x ->
  services_only w (with_services (setitem k v (services w)) w).
Proof.
  intros H. unfold services_only. cbn.
  repeat split. apply keys_setitem_present with (x := x), H.
Qed.

Lemma discover_service_frame (listing : dict) (k : string) (w : world) :
  exists w',
    discover_service listing k w = (Ret tt, w') /\ services_only w w'.
Proof.
  pose proof (services_only_refl w) as Hrefl.
  unfold discover_service, try_except.
  unfold bind at 1, gets.
  destruct (mem k (services w)); [|exists w; auto].
  unfold bind at 1, lift at 1. unfold subscript.
  destruct (lookup k listing) as [v|] eqn:Hk; [|exists w; auto].
  unfold bind at 1, lift at 1.
  pose proof (service_data_never_diverges v) as Hnd.
  destruct (service_data v) as [[name data]|e|] eqn:Hdata;
    [|exists w; auto|contradiction].
  unfold bind at 1. unfold bind at 1, lift at 1. cbn [fst snd].
  destruct name as [| | | |name| | | | |];
    try (exists w; cbn; auto; fail).
  cbn [subscript_value subscript].
  destruct (lookup name (services w)) as [target|] eqn:Htarget;
    [|exists w; auto].
  unfold bind at 1, lift at 1.
  destruct target as [| | | | | | |target| |];
    try (exists w; cbn; auto; fail).
  cbn [update_method]. unfold modify.
  eexists. split; [reflexivity|].
  apply services_only_setitem with (x := VDict target), Htarget.
Qed.

Lemma discover_services_frame (listing : dict) (l : list string) :
  forall w,
    exists w',
      for_each l (discover_service listing) w = (Ret tt, w') /\
      services_only w w'.
Proof.
  induction l as [|k l IH]; intros w; cbn [for_each].
  - exists w. split; [reflexivity | apply services_only_refl].
  - destruct (discover_service_frame listing k w) as (w1 & Hstep & H1).
    destruct (IH w1) as (w2 & Hrest & H2).
    exists w2. unfold bind. rewrite Hstep.
    split; [exact Hrest | eapply services_only_trans; eauto].
Qed.

Lemma merge_parameters_frame (parameters_list : value) (w : world) :
  exists r w',
    (if truthy parameters_list then
       svcs <- gets services ;;
       target <- lift (subscript (VDict svcs) (PARAMETERS E)) ;;
       updated <- lift (update_method target parameters_list) ;;
       modify (fun w =>
         with_services (setitem (PARAMETERS E) updated (services w)) w)
     else ret tt) w
    = (r, w') /\
    r <> Diverge /\ services_only w w'.
Proof.
  pose proof (services_only_refl w) as Hrefl.
  destruct (truthy parameters_list);
    [|exists (Ret tt), w;
      split; [reflexivity|]; split; [discriminate | exact Hrefl]].
  unfold bind, gets, lift, modify, subscript.
  destruct (lookup (PARAMETERS E) (services w)) as [target|] eqn:Htarget;
    [|eexists; exists w;
      split; [reflexivity|]; split; [discriminate | exact Hrefl]].
  destruct (update_method target parameters_list) as [updated|e|] eqn:Hup.
  - eexists. eexists. split; [reflexivity|].
    split; [discriminate|].
    apply services_only_setitem with (x := target), Htarget.
  - eexists; exists w.
    split; [reflexivity|]. split; [discriminate | exact Hrefl].
  - destruct target; try discriminate.
    destruct parameters_list; discriminate.
Qed.

Lemma discover_run_frame (w : world) :
  keys (services (snd (discover E w))) = keys (services w) /\
  trace (snd (discover E w)) = EvCall (getOperationList (url w)) :: trace w /\
  requests (snd (discover E w)) = requests w /\
  states (snd (discover E w)) = states w /\
  discovered (snd (discover E w))
  = match fst (discover E w) with
    | Ret _ => true
    | _ => discovered w
    end /\
  fst (discover E w) <> Diverge.
Proof.
  pose (P := fun out : result unit * world =>
          keys (services (snd out)) = keys (services w) /\
          trace (snd out) = EvCall (getOperationList (url w)) :: trace w /\
          requests (snd out) = requests w /\
          states (snd out) = states w /\
          discovered (snd out)
          = match fst out with Ret _ => true | _ => discovered w end /\
          fst out <> Diverge).
  change (P (discover E w)).
  set (w0 := with_trace (EvCall (getOperationList (url w)) :: trace w) w).
  assert (Hraise : forall e w2, services_only w0 w2 -> P (Raise e, w2)).
  { intros e w2 (Hu & Hr & Hs & Hd & _ & Ht & Hk). unfold P. cbn [fst snd].
    rewrite Hk, Ht, Hr, Hs, Hd. cbn. repeat split; discriminate. }
  assert (Hret : forall w2, services_only w0 w2 ->
                            P (Ret tt, with_discovered true w2)).
  { intros w2 (Hu & Hr & Hs & Hd & _ & Ht & Hk). unfold P. cbn [fst snd].
    cbn [services trace requests states discovered with_discovered].
    rewrite Hk, Ht, Hr, Hs. cbn. repeat split; discriminate. }
  pose proof (services_only_refl w0) as H0.
  clearbody P.
  unfold discover. unfold bind at 1, vin. unfold gets at 1.
  unfold bind at 1, await_call. fold w0.
  destruct (backend E (trace w) (getOperationList (url w)))
    as [response|e]; cbn [result_of_reply]; [|apply Hraise, H0].
  unfold bind at 1, lift at 1.
  destruct (get response "parameters" (VDict [])) as [parameters_list|e|]
    eqn:Hparams; [|apply Hraise, H0|destruct response; discriminate].
  unfold bind at 1, lift at 1.
  destruct (get response "capabilities" (VDict [])) as [capabilities_list|e|]
    eqn:Hcaps; [|apply Hraise, H0|destruct response; discriminate].
  unfold bind at 1.
  destruct (merge_parameters_frame parameters_list w0)
    as (r & w1 & Hmerge & Hnd & H1).
  rewrite Hmerge.
  destruct r as [[]|e|]; [|apply Hraise, H1|contradiction].
  unfold bind at 1.
  destruct (truthy capabilities_list).
  - destruct capabilities_list as [| | | | | | |c| |];
      try (apply Hraise, H1).
    destruct (discover_services_frame c (keys c) w1) as (w2 & Hloop & H2).
    rewrite Hloop. apply Hret. eapply services_only_trans; eauto.
  - apply Hret, H1.
Qed.

(** Whether the call fails or answers, and whatever the answer holds
    besides a bag of parameters that is absent, falsy or a mapping,
    [discover] makes one call, adds and removes no service, leaves the
    requests and the states alone, and marks the vehicle as discovered
    exactly when it returns. *)
Theorem discover_frame (w : world) :
  mapping_bag (backend E (trace w) (getOperationList (url w))) ->
  keys (services (snd (discover E w))) = keys (services w) /\
  trace (snd (discover E w)) = EvCall (getOperationList (url w)) :: trace w /\
  requests (snd (discover E w)) = requests w /\
  states (snd (discover E w)) = states w /\
  discovered (snd (discover E w))
  = match fst (discover E w) with
    | Ret _ => true
    | _ => discovered w
    end /\
  fst (discover E w) <> Diverge.
Proof. intros _. apply discover_run_frame. Qed.

(** Discovery is not stopped by an entry of the listing, whatever it
    holds: when the answer is a mapping whose parameters can be merged
    and whose capabilities are a mapping, or absent or empty, [discover]
    returns and the vehicle is marked as discovered. *)
Theorem discover_completes (w : world) (response : dict) :
  backend E (trace w) (getOperationList (url w)) = Answer (VDict response) ->
  parameters_mergeable E w (dget response "parameters" (VDict [])) ->
  (truthy (dget response "capabilities" (VDict [])) = false \/
   exists listing, dget response "capabilities" (VDict []) = VDict listing) ->
  fst (discover E w) = Ret tt /\ discovered (snd (discover E w)) = true.
Proof.
  intros Hreply Hparams Hcaps.
  assert (Hret : fst (discover E w) = Ret tt).
  { unfold discover. unfold bind at 1, vin. unfold gets at 1.
    unfold bind at 1, await_call. rewrite Hreply. cbn [result_of_reply].
    unfold bind at 1, lift at 1. cbn [get].
    unfold bind at 1, lift at 1. cbn [get].
    set (w0 := with_trace (EvCall (getOperationList (url w)) :: trace w) w).
    unfold bind at 1.
    assert (Hmerge : exists w1,
              (if truthy (dget response "parameters" (VDict [])) then
                 svcs <- gets services ;;
                 target <- lift (subscript (VDict svcs) (PARAMETERS E)) ;;
                 updated <- lift (update_method target
                                    (dget response "parameters" (VDict []))) ;;
                 modify (fun w =>
                   with_services
                     (setitem (PARAMETERS E) updated (services w)) w)
               else ret tt) w0
              = (Ret tt, w1)).
    { destruct Hparams as [Hfalsy|(p & target & Hp & Htarget)].
      - rewrite Hfalsy. eexists. reflexivity.
      - rewrite Hp. destruct (truthy (VDict p)); [|eexists; reflexivity].
        unfold bind, gets, lift, modify, subscript.
        cbn [services with_trace w0]. rewrite Htarget. cbn [update_method].
        eexists. reflexivity. }
    destruct Hmerge as (w1 & Hmerge). rewrite Hmerge.
    unfold bind at 1.
    destruct Hcaps as [Hfalsy|(listing & Hlisting)].
    - rewrite Hfalsy. reflexivity.
    - rewrite Hlisting. destruct (truthy (VDict listing)); [|reflexivity].
      destruct (discover_services_frame listing (keys listing) w1)
        as (w2 & Hloop & _).
      rewrite Hloop. reflexivity. }
  split; [exact Hret|].
  destruct (discover_run_frame w) as (_ & _ & _ & _ & Hdone & _).
  rewrite Hret in Hdone. exact Hdone.
Qed.

End DiscoveryFrame.

Lemma discover_frame_witness :
  keys (services (snd (discover (env_of malformed_backend)
                         (init (env_of malformed_backend) "WVWZZZ"))))
  = keys (services (init (env_of malformed_backend) "WVWZZZ")) /\
  trace (snd (discover (env_of malformed_backend)
                (init (env_of malformed_backend) "WVWZZZ")))
  = [EvCall (getOperationList "WVWZZZ")].
Proof.
  destruct (discover_frame (env_of malformed_backend)
              (init (env_of malformed_backend) "WVWZZZ"))
    as (Hkeys & Htrace & _).
  - intros response bag Hanswer Hbag.
    injection Hanswer as <-. injection Hbag as <-. left. reflexivity.
  - split; [exact Hkeys | exact Htrace].
Defined.

Lemma discover_completes_witness :
  fst (discover (env_of malformed_backend)
         (init (env_of malformed_backend) "WVWZZZ")) = Ret tt /\
  discovered (snd (discover (env_of malformed_backend)
                     (init (env_of malformed_backend) "WVWZZZ"))) = true.
Proof.
  apply (discover_completes (env_of malformed_backend) _ listing_malformed).
  - reflexivity.
  - left. reflexivity.
  - right. eexists. reflexivity.
Defined.

(** ** Arguments and failures of the control actions *)

Section Validation.

Variable E : env.

Lemma reader_then {A B} (m : M A) (k : A -> M B)
    (P : result B * world -> Prop) (w : world) :
  reader m ->
  (forall e, P (Raise e, w)) ->
  (forall a, P (k a w)) ->
  P (bind m k w).
Proof.
  intros Hm Hraise Hk. unfold bind.
  destruct (reader_run m w Hm) as (r & Hr & Hnd). rewrite Hr.
  destruct r as [a|e|]; [apply Hk | apply Hraise | contradiction].
Qed.

(** An argument that is not among the accepted ones never reaches the
    backend: the action makes no call and does not return True. *)
Theorem invalid_argument_makes_no_call (a : action) (w : world) :
  accepted E a = false ->
  trace (snd (run E a w)) = trace w /\ fst (run E a w) <> Ret true.
Proof.
  intros Hbad.
  pose (P := fun out : result bool * world =>
               trace (snd out) = trace w /\ fst out <> Ret true).
  change (P (run E a w)).
  assert (Hraise : forall e, P (Raise e, w))
    by (intros e; split; [reflexivity | discriminate]).
  destruct a as [x|x|t|x|mode|x|x spin]; cbn [run accepted] in *.
  - unfold set_charger.
    apply reader_then; [apply reader_is_charging_supported | exact Hraise|].
    intros [|]; [|apply Hraise].
    rewrite Hbad. apply Hraise.
  - unfold set_charging_settings.
    apply reader_then;
      [apply reader_is_charge_max_ac_setting_supported | exact Hraise|].
    intros [|]; [|apply Hraise].
    rewrite Hbad. apply Hraise.
  - unfold set_climatisation_temp.
    apply reader_then; [|exact Hraise|].
    { apply reader_or_else;
        [apply reader_is_electric_climatisation_supported | apply reader_ret]. }
    intros [|]; [|apply Hraise].
    unfold bind at 1, lift at 1.
    pose proof (float_of_never_diverges E (value_of_number t)) as Hnd.
    destruct (float_of E (value_of_number t)) as [q|e|];
      [|apply Hraise|contradiction].
    rewrite Hbad. apply Hraise.
  - unfold set_window_heating.
    apply reader_then;
      [apply reader_is_window_heater_supported | exact Hraise|].
    intros [|]; [|apply Hraise].
    rewrite Hbad. apply Hraise.
  - unfold set_battery_climatisation.
    apply reader_then; [apply reader_has_path | exact Hraise|].
    intros [|]; [|apply Hraise].
    rewrite Hbad. apply Hraise.
  - unfold set_climatisation.
    apply reader_then;
      [apply reader_is_electric_climatisation_supported | exact Hraise|].
    intros [|]; [|apply Hraise].
    apply orb_false_iff in Hbad. destruct Hbad as [Hstart Hstop].
    rewrite Hstart, Hstop. apply Hraise.
  - unfold set_lock.
    apply reader_then; [apply reader_service_active | exact Hraise|].
    intros active. unfold bind at 1.
    destruct (negb (truthy active)); [apply Hraise|].
    unfold ret at 1. unfold bind at 1.
    destruct (_in_progress E "lock" (-5) w) as [gate cleared] eqn:Hgate.
    destruct (in_progress_frame E "lock" (-5) w cleared gate Hgate)
      as (Htr & _ & _ & _ & _ & _ & _ & Hgate_nd).
    destruct gate as [[|]|e|]; [| | |contradiction];
      try (split; [exact Htr | discriminate]).
    rewrite Hbad. split; [exact Htr | discriminate].
Qed.


End Validation.

Lemma invalid_argument_makes_no_call_witness :
  trace (snd (run (env_of busy_backend) (SetLock (VStr "open") (VStr "1234"))
                (remote_vehicle (env_of busy_backend))))
  = trace (remote_vehicle (env_of busy_backend)) /\
  fst (run (env_of busy_backend) (SetLock (VStr "open") (VStr "1234"))
         (remote_vehicle (env_of busy_backend)))
  <> Ret true.
Proof.
  apply (invalid_argument_makes_no_call (env_of busy_backend)
           (SetLock (VStr "open") (VStr "1234"))).
  reflexivity.
Defined.


(** ** What discovery stores for a service *)

Section DiscoveryMerge.

Variable E : env.

Lemma lookup_update_other (k : string) (e : dict) :
  forall d, ~ In k (keys e) -> lookup k (update d e) = lookup k d.
Proof.
  unfold update.
  induction e as [|[k' v'] e IH]; intros d Hk; cbn; [reflexivity|].
  cbn in Hk. rewrite IH by tauto.
  apply lookup_setitem_ne. intros ->. tauto.
Qed.

Lemma lookup_update (k : string) (v : value) (e : dict) :
  NoDup (keys e) ->
  forall d, lookup k e = Some v -> lookup k (update d e) = Some v.
Proof.
  induction e as [|[k' v'] e IH]; intros Hnodup d Hk; [discriminate|].
  cbn in Hnodup. inversion Hnodup as [|? ? Hfresh Hrest]; subst.
  cbn in Hk. change (update d ((k', v') :: e))
    with (update (setitem k' v' d) e).
  destruct (String.eqb_spec k k') as [->|Hne].
  - injection Hk as ->.
    rewrite lookup_update_other by exact Hfresh.
    apply lookup_setitem_eq.
  - apply IH; assumption.
Qed.

Lemma lookup_None_keys (k : string) (d : dict) :
  lookup k d = None -> ~ In k (keys d).
Proof.
  induction d as [|[k' v'] d IH]; cbn; [tauto|].
  destruct (String.eqb_spec k k') as [->|Hne]; [discriminate|].
  intros H [Heq|Hin]; [congruence | exact (IH H Hin)].
Qed.

(** The data that [discover] collects for an entry has no key twice, and
    its flag "active" is the truth value of "isEnabled". *)
Lemma service_data_shape (entry : dict) (name : value) (data : dict) :
  service_data (VDict entry) = Ret (name, data) ->
  NoDup (keys data) /\
  lookup "active" data
  = Some (VBool (truthy (dget entry "isEnabled" (VBool false)))).
Proof.
  unfold service_data. cbn [get rbind].
  destruct (truthy (dget entry "isEnabled" (VBool false)));
    [|intros H; injection H as <- <-; split;
      [repeat constructor; cbn; tauto | reflexivity]].
  destruct (truthy (dget entry "expirationDate" (VBool false)));
    (destruct (truthy (dget entry "operations" (VBool false)));
     [destruct (dget entry "operations" (VBool false))
        as [| | | | | | |ops| |]; try discriminate;
      destruct (operation_ids ops (keys ops)) as [ids|e|];
        try discriminate|]);
    cbn [rbind];
    (destruct (truthy (dget entry "parameters" (VBool false)));
     [destruct (iterate (dget entry "parameters" (VBool false)))
        as [items|e|]; try discriminate|]);
    cbn [rbind]; intros H; injection H as <- <-; cbn;
    (split; [repeat constructor; cbn; intuition discriminate
            | reflexivity]).
Qed.

Lemma discover_service_merges (listing : dict) (svc : string)
    (entry data rec : dict) (w : world) :
  lookup svc listing = Some (VDict entry) ->
  service_data (VDict entry) = Ret (VStr svc, data) ->
  lookup svc (services w) = Some (VDict rec) ->
  discover_service listing svc w
  = (Ret tt,
     with_services (setitem svc (VDict (update rec data)) (services w)) w).
Proof.
  intros Hentry Hdata Hrec.
  unfold discover_service, try_except.
  unfold bind at 1, gets. rewrite (mem_lookup _ _ _ Hrec).
  unfold bind at 1, lift at 1. unfold subscript. rewrite Hentry.
  unfold bind at 1, lift at 1. rewrite Hdata.
  unfold bind at 1. unfold bind at 1, lift at 1. cbn [fst snd].
  cbn [subscript_value subscript]. rewrite Hrec.
  reflexivity.
Qed.

Lemma discover_loop_merges (listing : dict) (svc : string)
    (entry data : dict) :
  lookup svc listing = Some (VDict entry) ->
  service_data (VDict entry) = Ret (VStr svc, data) ->
  (forall k v, k <> svc -> lookup k listing = Some v ->
               get v "id" VNone <> Ret (VStr svc)) ->
  forall (ks : list string) (w : world) (rec : dict),
    lookup svc (services w) = Some (VDict rec) ->
    exists w' rec',
      for_each ks (discover_service listing) w = (Ret tt, w') /\
      lookup svc (services w') = Some (VDict rec') /\
      (forall field v,
         lookup field data = Some v ->
         In svc ks \/ lookup field rec = Some v ->
         lookup field rec' = Some v) /\
      (forall field,
         lookup field data = None -> lookup field rec' = lookup field rec).
Proof.
  intros Hentry Hdata Hothers.
  destruct (service_data_shape entry _ _ Hdata) as [Hnodup _].
  induction ks as [|k ks IH]; intros w rec Hrec.
  - exists w, rec. cbn. repeat split; auto.
    intros field v _ [[]|Hdone]. exact Hdone.
  - cbn [for_each]. unfold bind at 1.
    assert (Hstep : exists w1 rec1,
               discover_service listing k w = (Ret tt, w1) /\
               lookup svc (services w1) = Some (VDict rec1) /\
               (forall field v,
                  lookup field data = Some v ->
                  k = svc \/ lookup field rec = Some v ->
                  lookup field rec1 = Some v) /\
               (forall field,
                  lookup field data = None ->
                  lookup field rec1 = lookup field rec)).
    { destruct (String.eqb_spec k svc) as [->|Hne].
      - rewrite (discover_service_merges listing svc entry data rec w
                   Hentry Hdata Hrec).
        eexists. exists (update rec data).
        split; [reflexivity|]. cbn.
        split; [apply lookup_setitem_eq|]. split.
        + intros field v Hfield _. apply lookup_update; assumption.
        + intros field Hfield. apply lookup_update_other.
          apply lookup_None_keys, Hfield.
      - destruct (discover_service_step listing k w)
          as (w1 & Hrun & _ & _ & Hsvc).
        exists w1, rec. split; [exact Hrun|]. split.
        + destruct Hsvc as [->|(v & name & data' & target & Hk & Hdata'
                                 & Htarget & ->)]; [exact Hrec|].
          apply service_data_name in Hdata'.
          rewrite lookup_setitem_ne; [exact Hrec|].
          intros ->. exact (Hothers k v Hne Hk Hdata').
        + split; [|reflexivity].
          intros field v _ [Heq|Hdone]; [contradiction | exact Hdone]. }
    destruct Hstep as (w1 & rec1 & Hrun & Hrec1 & Hset1 & Hkeep1).
    rewrite Hrun.
    destruct (IH w1 rec1 Hrec1) as (w' & rec' & Hloop & Hrec' & Hset' & Hkeep').
    exists w', rec'. split; [exact Hloop|]. split; [exact Hrec'|]. split.
    + intros field v Hfield [[Hk|Hin]|Hdone]; apply (Hset' field v Hfield);
        auto.
    + intros field Hfield. rewrite Hkeep', Hkeep1; auto.
Qed.

(** What [discover] stores for a service that the listing describes under
    its own name: the old record, overwritten field by field with the data
    collected from the entry.  The flag "active" becomes the truth value of
    "isEnabled", so that an enabled entry activates the service. *)
Theorem discover_merges_entry
    (w : world) (svc : string) (response listing entry data rec : dict) :
  backend E (trace w) (getOperationList (url w)) = Answer (VDict response) ->
  parameters_mergeable E w (dget response "parameters" (VDict [])) ->
  lookup "capabilities" response = Some (VDict listing) ->
  lookup svc listing = Some (VDict entry) ->
  service_data (VDict entry) = Ret (VStr svc, data) ->
  lookup svc (services w) = Some (VDict rec) ->
  PARAMETERS E <> svc ->
  (forall k v, k <> svc -> lookup k listing = Some v ->
               get v "id" VNone <> Ret (VStr svc)) ->
  exists rec',
    fst (discover E w) = Ret tt /\
    lookup svc (services (snd (discover E w))) = Some (VDict rec') /\
    (forall field,
       lookup field rec'
       = match lookup field data with
         | Some v => Some v
         | None => lookup field rec
         end) /\
    fst (service_active svc (snd (discover E w)))
    = Ret (VBool (truthy (dget entry "isEnabled" (VBool false)))).
Proof.
  intros Hreply Hparams Hcaps Hentry Hdata Hrec Hne Hothers.
  set (w0 := with_trace (EvCall (getOperationList (url w)) :: trace w) w).
  assert (Hmerge :
            exists w1,
              (if truthy (dget response "parameters" (VDict [])) then
                 svcs <- gets services ;;
                 target <- lift (subscript (VDict svcs) (PARAMETERS E)) ;;
                 updated <- lift (update_method target
                                    (dget response "parameters" (VDict []))) ;;
                 modify (fun w =>
                   with_services
                     (setitem (PARAMETERS E) updated (services w)) w)
               else ret tt) w0
              = (Ret tt, w1) /\
              lookup svc (services w1) = Some (VDict rec)).
  { destruct Hparams as [Hfalsy|(p & target & Hp & Htarget)].
    - rewrite Hfalsy. eexists. split; [reflexivity | exact Hrec].
    - rewrite Hp. destruct (truthy (VDict p));
        [|eexists; split; [reflexivity | exact Hrec]].
      unfold bind, gets, lift, modify, subscript.
      cbn [services with_trace w0]. rewrite Htarget. cbn [update_method].
      eexists. split; [reflexivity|]. cbn [services with_services].
      rewrite lookup_setitem_ne by exact Hne. exact Hrec. }
  destruct Hmerge as (w1 & Hmerge & Hrec1).
  destruct (discover_loop_merges listing svc entry data Hentry Hdata Hothers
              (keys listing) w1 rec Hrec1)
    as (w2 & rec2 & Hloop & Hrec2 & Hset & Hkeep).
  assert (Hrun : discover E w = (Ret tt, with_discovered true w2)).
  { unfold discover. unfold bind at 1, vin. unfold gets at 1.
    unfold bind at 1, await_call. rewrite Hreply. cbn [result_of_reply].
    unfold bind at 1, lift at 1. cbn [get].
    unfold bind at 1, lift at 1. cbn [get].
    rewrite (dget_lookup _ _ _ _ Hcaps).
    unfold bind at 1. fold w0. rewrite Hmerge.
    unfold bind at 1.
    replace (truthy (VDict listing)) with true
      by (destruct listing; [discriminate | reflexivity]).
    rewrite Hloop. reflexivity. }
  rewrite Hrun. cbn [fst snd services with_discovered].
  assert (Hfields : forall field,
            lookup field rec2
            = match lookup field data with
              | Some v => Some v
              | None => lookup field rec
              end).
  { intros field. destruct (lookup field data) as [v|] eqn:Hfield.
    - apply (Hset field v Hfield). left.
      exact (lookup_In_keys _ _ _ Hentry).
    - apply Hkeep, Hfield. }
  exists rec2. split; [reflexivity|]. split; [exact Hrec2|].
  split; [exact Hfields|].
  unfold service_active, bind, gets, lift. cbn [services with_discovered].
  rewrite (dget_lookup _ _ _ _ Hrec2). cbn [get fst].
  unfold dget. rewrite Hfields.
  destruct (service_data_shape entry _ _ Hdata) as [_ Hactive].
  rewrite Hactive. reflexivity.
Qed.

End DiscoveryMerge.

Lemma discover_merges_entry_witness :
  fst (service_active "access"
         (snd (discover (env_of refusing_backend)
                 (init (env_of refusing_backend) "WVWZZZ"))))
  = Ret (VBool true).
Proof.
  destruct (discover_merges_entry (env_of refusing_backend)
              (init (env_of refusing_backend) "WVWZZZ") "access"
              [("capabilities",
                VDict
                  [("access",
                    VDict [("id", VStr "access"); ("isEnabled", VBool true);
                           ("operations",
                            VDict [("lock", VDict [("id", VStr "lock")]);
                                   ("unlock",
                                    VDict [("id", VStr "unlock")])])])])]
              [("access",
                VDict [("id", VStr "access"); ("isEnabled", VBool true);
                       ("operations",
                        VDict [("lock", VDict [("id", VStr "lock")]);
                               ("unlock", VDict [("id", VStr "unlock")])])])]
              [("id", VStr "access"); ("isEnabled", VBool true);
               ("operations",
                VDict [("lock", VDict [("id", VStr "lock")]);
                       ("unlock", VDict [("id", VStr "unlock")])])]
              [("active", VBool true);
               ("operations", VList [VStr "lock"; VStr "unlock"])]
              [("active", VBool false)])
    as (rec' & _ & _ & _ & Hactive).
  - reflexivity.
  - left. reflexivity.
  - reflexivity.
  - reflexivity.
  - reflexivity.
  - reflexivity.
  - discriminate.
  - intros k v Hk Hv. cbn in Hv.
    destruct (String.eqb_spec k "access"); [contradiction | discriminate].
  - exact Hactive.
Defined.
